(** * Bfabric: Brocade zoning command generator

    A shallow embedding of [Bfabric.py] (identifier checks, the validation
    passes over [all_fab], the alias and zone emission loops) and of the
    scan of [wwidfmt.py], followed by the properties established for them.

    Conventions of the embedding.
    - A Python [str] is a [string]; a character is a code point below 256.
    - A row of [all_fab] (a six element Python list) is the record [devrow];
      field [node] is index 0, [primaryif] 1, [subif] 2, [fabric] 3,
      [initgt] 4 and [wwpn] 5.
    - A [print] that reports a data problem is a [diagnostic] appended to
      the field [printed] of the program variables.
    - A text file is the list of the [command]s written to it, in order;
      [render] gives the exact text of each.
    - [list.sort(key=...)] is a stable sort on the code point order of the
      keys. *)

From Stdlib Require Import Bool Arith NArith List Ascii String.
From Stdlib Require Import Permutation Sorted Lia.
Import ListNotations.

Local Open Scope list_scope.
Local Open Scope string_scope.

(* ================================================================= *)
(** ** Python primitives *)

Module Py.

(** [s[a:b]] for [0 <= a <= b]: indices beyond the end are clamped. *)
Definition slice (a b : nat) (s : string) : string :=
  substring a (b - a) s.

(** [c.lower()] on a code point below 256: the ASCII capitals and the
    Latin-1 capitals (all of 192..222 but the multiplication sign). *)
Definition lower (c : ascii) : ascii :=
  let n := N_of_ascii c in
  if ((65 <=? n) && (n <=? 90) ||
      (192 <=? n) && (n <=? 222) && negb (n =? 215))%N
  then ascii_of_N (n + 32) else c.

(** Comparison of one-character strings. *)
Definition lt (a b : ascii) : bool := Ascii.ltb a b.
Definition gt (a b : ascii) : bool := Ascii.ltb b a.
Definition le (a b : ascii) : bool := Ascii.leb a b.
Definition ge (a b : ascii) : bool := Ascii.leb b a.

(** ["{:<10}".format(s)]: left aligned in a field of width 10. *)
Fixpoint spaces (n : nat) : string :=
  match n with
  | O => EmptyString
  | S n' => String " " (spaces n')
  end.

Definition ljust10 (s : string) : string :=
  s ++ spaces (10 - String.length s).

(** [l.sort(key=key)]: stable, ascending on [String.ltb] of the keys.
    The head is put in front of the first element whose key is not
    smaller, so equal keys keep their order. *)
Section Sort.
Context {A : Type} (key : A -> string).

Fixpoint insert (x : A) (l : list A) : list A :=
  match l with
  | [] => [x]
  | y :: l' =>
      if String.ltb (key y) (key x) then y :: insert x l'
      else x :: y :: l'
  end.

Fixpoint sort (l : list A) : list A :=
  match l with
  | [] => []
  | x :: l' => insert x (sort l')
  end.
End Sort.

End Py.

(* ================================================================= *)
(** ** Rows and diagnostics *)

Record devrow := Devrow {
  node : string;
  primaryif : string;
  subif : string;
  fabric : string;
  initgt : string;
  wwpn : string
}.

(** One constructor per reporting [print] of the program. *)
Inductive diagnostic :=
| WwidInvalidLength (wwid : string)
| WwidColonNotWhereExpected (wwid : string)
| WwidInvalidHexCharacter (wwid : string)
| InvalidInitiatorTarget (wwpn : string)
| InvalidFabricIdentifier (wwpn : string)
| DuplicateWwpn (wwpn : string)
| DuplicateName (node iface subif : string)
| CableMisconfiguration (last_devrow : option devrow) (devrow : devrow).

(** The first line printed for a diagnostic. *)
Definition text_of (d : diagnostic) : string :=
  match d with
  | WwidInvalidLength w => "WWID has invalid length " ++ w
  | WwidColonNotWhereExpected w =>
      "WWID invalid format - colon not where expected " ++ w
  | WwidInvalidHexCharacter w => "WWID has invalid hex character " ++ w
  | InvalidInitiatorTarget w =>
      "Invalid Initiator/Target value - must be I or T " ++ w
  | InvalidFabricIdentifier w => "Fabric identifier must be A or B " ++ w
  | DuplicateWwpn w => "Duplicate wwpn found " ++ w
  | DuplicateName n i s => "Duplicate name found: " ++ n ++ " " ++ i ++ " " ++ s
  | CableMisconfiguration _ _ => "Possible cable misconfiguration detected"
  end.

(* ================================================================= *)
(** ** Identifier checks *)

(** The test of the [for nibble in hexwid] loop. *)
Definition bad_nibble (nibble : ascii) : bool :=
  (Py.lt nibble "0" || Py.gt nibble "f") ||
  (Py.gt nibble "9" && Py.lt nibble "a").

(** [true] when the loop reaches its [return None]. *)
Fixpoint has_bad_nibble (hexwid : string) : bool :=
  match hexwid with
  | EmptyString => false
  | String nibble rest =>
      if bad_nibble nibble then true else has_bad_nibble rest
  end.

Definition neq (a b : string) : bool := negb (String.eqb a b).

(** [strictwwid]: what is printed, and the value returned ([None] or the
    WWID). *)
Definition strictwwid (wwid : string) : list diagnostic * option string :=
  if negb (Nat.eqb (String.length wwid) 23) then
    ([WwidInvalidLength wwid], None)
  else if neq (Py.slice 2 3 wwid) ":" && neq (Py.slice 5 6 wwid) ":" &&
          neq (Py.slice 8 9 wwid) ":" && neq (Py.slice 11 12 wwid) ":" &&
          neq (Py.slice 14 15 wwid) ":" && neq (Py.slice 17 18 wwid) ":" &&
          neq (Py.slice 20 21 wwid) ":" then
    ([WwidColonNotWhereExpected wwid], None)
  else
    let hexwid :=
      Py.slice 0 2 wwid ++ Py.slice 3 5 wwid ++ Py.slice 6 8 wwid ++
      Py.slice 9 11 wwid ++ Py.slice 12 14 wwid ++ Py.slice 15 17 wwid ++
      Py.slice 18 20 wwid ++ Py.slice 21 23 wwid in
    if has_bad_nibble hexwid then ([WwidInvalidHexCharacter wwid], None)
    else ([], Some wwid).

(** The test of the [for userchar in wwid] loop, on the lowered character. *)
Definition is_hex (userchar : ascii) : bool :=
  (Py.ge userchar "0" && Py.le userchar "9") ||
  (Py.ge userchar "a" && Py.le userchar "f").

(** The loop of [loosewwid] (and of [wwidfmt.py]), [hexstring] threaded. *)
Fixpoint hex_scan (wwid hexstring : string) : string :=
  match wwid with
  | EmptyString => hexstring
  | String userchar rest =>
      let userchar := Py.lower userchar in
      if is_hex userchar
      then hex_scan rest (hexstring ++ String userchar EmptyString)
      else hex_scan rest hexstring
  end.

Definition brocadefmt (hexstring : string) : string :=
  Py.slice 0 2 hexstring ++ ":" ++ Py.slice 2 4 hexstring ++ ":" ++
  Py.slice 4 6 hexstring ++ ":" ++ Py.slice 6 8 hexstring ++ ":" ++
  Py.slice 8 10 hexstring ++ ":" ++ Py.slice 10 12 hexstring ++ ":" ++
  Py.slice 12 14 hexstring ++ ":" ++ Py.slice 14 16 hexstring.

Definition loosewwid (wwid : string) : list diagnostic * option string :=
  let hexstring := hex_scan wwid EmptyString in
  if negb (Nat.eqb (String.length hexstring) 16) then
    ([WwidInvalidLength wwid], None)
  else ([], Some (brocadefmt hexstring)).

(** [alias_format]. *)
Definition alias_format (linelist : devrow) : string :=
  let ali := "ali_" ++ node linelist in
  let ali := if neq (primaryif linelist) EmptyString
             then ali ++ "_" ++ primaryif linelist else ali in
  let ali := if neq (subif linelist) EmptyString
             then ali ++ "_" ++ subif linelist else ali in
  ali ++ "_F" ++ fabric linelist.

(* ================================================================= *)
(** ** Section 1: the per-row checks *)

(** The variables of the validation passes. [dupname_error] is the flag
    initialised before the duplicate-name loop and read by the cable check;
    [dupnam_error] is the name assigned inside that loop ([None] while it is
    unbound). *)
Record vars := Vars {
  errors_found : bool;
  wwidct : nat;
  dupname_error : bool;
  dupnam_error : option bool;
  printed : list diagnostic
}.

Definition vars0 : vars := Vars false 0 false None [].

Definition print (ds : list diagnostic) (v : vars) : vars :=
  Vars (errors_found v) (wwidct v) (dupname_error v) (dupnam_error v)
       (printed v ++ ds)%list.

Definition set_errors_found (v : vars) : vars :=
  Vars true (wwidct v) (dupname_error v) (dupnam_error v) (printed v).

Definition set_dupnam_error (v : vars) : vars :=
  Vars (errors_found v) (wwidct v) (dupname_error v) (Some true) (printed v).

Definition incr_wwidct (v : vars) : vars :=
  Vars (errors_found v) (S (wwidct v)) (dupname_error v) (dupnam_error v)
       (printed v).

(** The role and fabric tests of the loop body; [wwpn] is the local
    variable of that name (the row itself is left as it was read). *)
Definition check_initgt_fabric (rec : devrow) (wwpn : string) (v : vars)
  : vars :=
  if neq (initgt rec) "I" && neq (initgt rec) "T" then
    set_errors_found (print [InvalidInitiatorTarget wwpn] v)
  else if neq (fabric rec) "A" && neq (fabric rec) "B" then
    set_errors_found (print [InvalidFabricIdentifier wwpn] v)
  else incr_wwidct v.

(** One iteration of [for rec in all_fab]. *)
Definition check_row (strict : string) (rec : devrow) (v : vars) : vars :=
  if String.eqb strict "S" then
    let '(out, wwidok) := strictwwid (wwpn rec) in
    match wwidok with
    | None => set_errors_found (print out v)
    | Some _ => check_initgt_fabric rec (wwpn rec) (print out v)
    end
  else
    let '(out, wwidok) := loosewwid (wwpn rec) in
    match wwidok with
    | None => set_errors_found (print out v)
    | Some wwidok => check_initgt_fabric rec wwidok (print out v)
    end.

Definition check_rows (strict : string) (all_fab : list devrow) (v : vars)
  : vars :=
  fold_left (fun v rec => check_row strict rec v) all_fab v.

(* ================================================================= *)
(** ** Section 2: the checks over the whole list *)

Definition sort_WWPN (swwpn : devrow) : string := wwpn swwpn.

Fixpoint dup_wwpn_loop (all_fab : list devrow) (last_wwpn : string)
  (v : vars) : vars :=
  match all_fab with
  | [] => v
  | devrow :: rest =>
      let dr_wwpn := wwpn devrow in
      if neq dr_wwpn last_wwpn then dup_wwpn_loop rest dr_wwpn v
      else dup_wwpn_loop rest last_wwpn
             (set_errors_found (print [DuplicateWwpn dr_wwpn] v))
  end.

Definition sort_cabkeys (cabval : devrow) : string :=
  Py.ljust10 (node cabval) ++ Py.ljust10 (primaryif cabval) ++
  Py.ljust10 (subif cabval) ++ wwpn cabval.

Fixpoint dup_name_loop (all_fab : list devrow)
  (prv_node prv_iface prv_subif : string) (v : vars) : vars :=
  match all_fab with
  | [] => v
  | devrow :: rest =>
      let v :=
        if String.eqb (node devrow) prv_node &&
           String.eqb (primaryif devrow) prv_iface &&
           String.eqb (subif devrow) prv_subif
        then set_dupnam_error (set_errors_found
               (print [DuplicateName (node devrow) (primaryif devrow)
                                     (subif devrow)] v))
        else v in
      dup_name_loop rest (node devrow) (primaryif devrow) (subif devrow) v
  end.

Fixpoint cable_loop (all_fab : list devrow) (fabriccmp : string)
  (last_devrow : option devrow) (v : vars) : vars :=
  match all_fab with
  | [] => v
  | devrow :: rest =>
      let fabric := fabric devrow in
      let v :=
        if String.eqb fabric fabriccmp
        then set_errors_found
               (print [CableMisconfiguration last_devrow devrow] v)
        else v in
      cable_loop rest fabric (Some devrow) v
  end.

Definition cable_check (cabchk : string) (all_fab : list devrow) (v : vars)
  : vars :=
  if String.eqb cabchk "Y" && negb (dupname_error v)
  then cable_loop all_fab " " None v
  else v.

(** Sections 1 to 2b in sequence: the list as the last sort left it, and
    the variables. *)
Definition validate (strict cabchk : string) (all_fab : list devrow)
  : list devrow * vars :=
  let v := check_rows strict all_fab vars0 in
  let all_fab := Py.sort sort_WWPN all_fab in
  let v := dup_wwpn_loop all_fab EmptyString v in
  let all_fab := Py.sort sort_cabkeys all_fab in
  let v := dup_name_loop all_fab " " " " " " v in
  let v := cable_check cabchk all_fab v in
  (all_fab, v).

(* ================================================================= *)
(** ** Sections 3 and 4: alias and zone commands *)

Inductive command :=
| Header (text : string)
| AliCreate (aliname wwpn : string)
| ZoneCreate (zoname initali : string)
| ZoneAdd (zoname zonali : string)
| CfgClear
| CfgDisable
| CfgCreate (cfgname zoname : string)
| CfgAdd (cfgname zoname : string)
| CfgSave.

Definition dq : string := String "034" EmptyString.
Definition nl : string := String "010" EmptyString.

(** The text of each [write]. *)
Definition render (c : command) : string :=
  match c with
  | Header text => "# " ++ text ++ nl
  | AliCreate a w =>
      "aliCreate " ++ dq ++ a ++ dq ++ ", " ++ dq ++ w ++ dq ++ nl
  | ZoneCreate z a =>
      "zoneCreate " ++ dq ++ z ++ dq ++ ", " ++ dq ++ a ++ dq ++ nl
  | ZoneAdd z a =>
      "zoneAdd    " ++ dq ++ z ++ dq ++ ", " ++ dq ++ a ++ dq ++ nl
  | CfgClear => "cfgClear" ++ nl
  | CfgDisable => "cfgDisable" ++ nl
  | CfgCreate c z =>
      "cfgCreate " ++ dq ++ c ++ dq ++ ", " ++ dq ++ z ++ dq ++ nl
  | CfgAdd c z =>
      "cfgAdd    " ++ dq ++ c ++ dq ++ ", " ++ dq ++ z ++ dq ++ nl
  | CfgSave => "cfgSave"
  end.

Definition sort_ALIif (salitgt : devrow) : string :=
  node salitgt ++ primaryif salitgt ++ subif salitgt.

Record avars := Avars {
  afabali : list command;
  bfabali : list command;
  aliact : nat;
  alibct : nat
}.

Definition avars0 : avars :=
  Avars [Header "Alias create commands for fabric A"]
        [Header "Alias create commands for fabric B"] 0 0.

Definition alias_step (a : avars) (devrow : devrow) : avars :=
  let aliname := alias_format devrow in
  let aliline := AliCreate aliname (wwpn devrow) in
  if String.eqb (fabric devrow) "A"
  then Avars (afabali a ++ [aliline])%list (bfabali a)
             (S (aliact a)) (alibct a)
  else Avars (afabali a) (bfabali a ++ [aliline])%list
             (aliact a) (S (alibct a)).

Definition alias_loop (all_fab : list devrow) : avars :=
  fold_left alias_step all_fab avars0.

Definition sort_ITif (sinitgt : devrow) : string :=
  initgt sinitgt ++ node sinitgt ++ primaryif sinitgt ++ subif sinitgt.

Definition is_initiator (devrow : devrow) : bool :=
  String.eqb (initgt devrow) "I".

Definition INI_list (all_fab : list devrow) : list devrow :=
  filter is_initiator all_fab.

Definition TGT_list (all_fab : list devrow) : list devrow :=
  filter (fun devrow => negb (is_initiator devrow)) all_fab.

(** The variables of the zoning loops; the three [last_*] start as [None]. *)
Record zvars := Zvars {
  last_ininode : option string;
  last_iniprime : option string;
  last_tgtnode : option string;
  cfga_count : nat;
  cfgb_count : nat;
  afabzon : list command;
  bfabzon : list command;
  afabcfg : list command;
  bfabcfg : list command
}.

Definition zvars0 : zvars :=
  Zvars None None None 0 0
        [Header "Zone create commands for fabric A"]
        [Header "Zone create commands for fabric B"]
        [Header "Switch config commands for fabric A"; CfgClear; CfgDisable]
        [Header "Switch config commands for fabric B"; CfgClear; CfgDisable].

(** [s == last] where [last] may still be [None]. *)
Definition eq_last (s : string) (last : option string) : bool :=
  match last with
  | Some l => String.eqb s l
  | None => false
  end.

(** The body of [for tgtrow in TGT_list]. *)
Definition zone_step (cfgname : string) (inirow : devrow) (z : zvars)
  (tgtrow : devrow) : zvars :=
  let inode := node inirow in
  let iprime := primaryif inirow in
  let initali := alias_format inirow in
  if neq (fabric inirow) (fabric tgtrow) then z
  else
    let tnode := node tgtrow in
    let zoname := "zon_" ++ inode ++ "_" ++ iprime ++ "_" ++ tnode in
    let zonali := alias_format tgtrow in
    let same := eq_last inode (last_ininode z) &&
                eq_last iprime (last_iniprime z) &&
                eq_last tnode (last_tgtnode z) in
    let lines := if same then [ZoneAdd zoname zonali]
                 else [ZoneCreate zoname initali; ZoneAdd zoname zonali] in
    if String.eqb (fabric inirow) "A" then
      if same then
        Zvars (Some inode) (Some iprime) (Some tnode)
              (cfga_count z) (cfgb_count z)
              (afabzon z ++ lines)%list (bfabzon z) (afabcfg z) (bfabcfg z)
      else
        let cfga_count := S (cfga_count z) in
        let cfgline := if Nat.eqb cfga_count 1 then CfgCreate cfgname zoname
                       else CfgAdd cfgname zoname in
        Zvars (Some inode) (Some iprime) (Some tnode)
              cfga_count (cfgb_count z)
              (afabzon z ++ lines)%list (bfabzon z)
              (afabcfg z ++ [cfgline])%list (bfabcfg z)
    else
      if same then
        Zvars (Some inode) (Some iprime) (Some tnode)
              (cfga_count z) (cfgb_count z)
              (afabzon z) (bfabzon z ++ lines)%list (afabcfg z) (bfabcfg z)
      else
        let cfgb_count := S (cfgb_count z) in
        let cfgline := if Nat.eqb cfgb_count 1 then CfgCreate cfgname zoname
                       else CfgAdd cfgname zoname in
        Zvars (Some inode) (Some iprime) (Some tnode)
              (cfga_count z) cfgb_count
              (afabzon z) (bfabzon z ++ lines)%list
              (afabcfg z) (bfabcfg z ++ [cfgline])%list.

(** The nested loops, then the two closing [cfgSave] writes. *)
Definition zone_loop (cfgname : string) (INI TGT : list devrow) : zvars :=
  let z := fold_left
             (fun z inirow => fold_left (zone_step cfgname inirow) TGT z)
             INI zvars0 in
  Zvars (last_ininode z) (last_iniprime z) (last_tgtnode z)
        (cfga_count z) (cfgb_count z) (afabzon z) (bfabzon z)
        (afabcfg z ++ [CfgSave])%list (bfabcfg z ++ [CfgSave])%list.

(* ================================================================= *)
(** ** The whole run *)

(** The six output files in the working directory; [None] is a file that
    does not exist. *)
Record folder := Folder {
  Afab_ali : option (list command);
  Bfab_ali : option (list command);
  Afab_zon : option (list command);
  Bfab_zon : option (list command);
  Afab_cfg : option (list command);
  Bfab_cfg : option (list command)
}.

(** The folder once the six [os.remove] calls have run. *)
Definition removed : folder := Folder None None None None None None.

Record outcome := Outcome {
  exit_status : nat;
  diagnostics : list diagnostic;
  files : folder;
  records_processed : nat
}.

(** Sections 3 and 4 on the validated list: the six files. *)
Definition emit (cfgname : string) (all_fab : list devrow) : folder :=
  let all_fab := Py.sort sort_ALIif all_fab in
  let a := alias_loop all_fab in
  let all_fab := Py.sort sort_ITif all_fab in
  let z := zone_loop cfgname (INI_list all_fab) (TGT_list all_fab) in
  Folder (Some (afabali a)) (Some (bfabali a))
         (Some (afabzon z)) (Some (bfabzon z))
         (Some (afabcfg z)) (Some (bfabcfg z)).

(** The program from the point where [all_fab] has been read: [strict] and
    [cabchk] are the answers to the two prompts, [today] the date text of
    [strftime]. *)
Definition main (strict cabchk today : string) (all_fab : list devrow)
  : outcome :=
  let '(all_fab, v) := validate strict cabchk all_fab in
  if errors_found v then Outcome 1 (printed v) removed (wwidct v)
  else Outcome 0 (printed v) (emit ("cfg" ++ today) all_fab) (wwidct v).

(** All six files exist. *)
Definition all_written (f : folder) : bool :=
  match Afab_ali f, Bfab_ali f, Afab_zon f, Bfab_zon f, Afab_cfg f, Bfab_cfg f
  with
  | Some _, Some _, Some _, Some _, Some _, Some _ => true
  | _, _, _, _, _, _ => false
  end.

(** Something has been reported. *)
Definition reported (v : vars) : bool :=
  match printed v with
  | [] => false
  | _ :: _ => true
  end.

(** The flag [errors_found] is set exactly when a diagnostic was printed. *)
Definition flag_agrees (v : vars) : Prop := errors_found v = reported v.

(* ================================================================= *)
(** ** Reference definitions for the identifier formats

    These follow the wording of the specification and are compared with the
    functions above. *)

Definition char_in (alphabet : string) (c : ascii) : bool :=
  existsb (Ascii.eqb c) (list_ascii_of_string alphabet).

(** A hex digit: one of 0-9, a-f. *)
Definition spec_hex_lower : ascii -> bool := char_in "0123456789abcdef".

(** A hex digit of either case. *)
Definition spec_hex_either_case : ascii -> bool :=
  char_in "0123456789abcdefABCDEF".

(** Case-fold every character, keep the hex digits, drop the rest. *)
Definition spec_hex_digits (raw : string) : list ascii :=
  filter spec_hex_lower (map Py.lower (list_ascii_of_string raw)).

(** Cut a digit sequence into byte pairs. *)
Fixpoint spec_pairs (digits : list ascii) : list string :=
  match digits with
  | a :: b :: rest => String a (String b EmptyString) :: spec_pairs rest
  | [a] => [String a EmptyString]
  | [] => []
  end.

(** The canonical rendering: byte pairs separated by colons. *)
Definition spec_render (digits : list ascii) : string :=
  String.concat ":" (spec_pairs digits).

(** The seven separator positions of the 23 character form. *)
Definition spec_colon_positions : list nat := [2; 5; 8; 11; 14; 17; 20].

Definition is_colon_position (i : nat) : bool :=
  existsb (Nat.eqb i) spec_colon_positions.

Definition holds_colon (s : string) (i : nat) : bool :=
  match String.get i s with
  | Some c => Ascii.eqb c ":"
  | None => false
  end.

Definition spec_position_ok (hexp : ascii -> bool) (s : string) (i : nat)
  : bool :=
  match String.get i s with
  | Some c => if is_colon_position i then Ascii.eqb c ":" else hexp c
  | None => false
  end.

(** 23 characters, colons exactly at the seven positions, [hexp]
    elsewhere. *)
Definition spec_strict_shape (hexp : ascii -> bool) (s : string) : bool :=
  Nat.eqb (String.length s) 23 && forallb (spec_position_ok hexp s) (seq 0 23).

(** 23 characters, and one of the seven positions does not hold a colon. *)
Definition spec_separator_misplaced (s : string) : bool :=
  Nat.eqb (String.length s) 23 &&
  existsb (fun i => negb (holds_colon s i)) spec_colon_positions.

(* ================================================================= *)
(** ** Reference definitions for ordering and zoning *)

(** Ascending order of the tuple (node, primaryInterface,
    secondaryInterface), component by component. *)
Definition spec_name_ltb (a b : devrow) : bool :=
  String.ltb (node a) (node b) ||
  String.eqb (node a) (node b) &&
  (String.ltb (primaryif a) (primaryif b) ||
   String.eqb (primaryif a) (primaryif b) &&
   String.ltb (subif a) (subif b)).

(** The same with the role in front. *)
Definition spec_role_name_ltb (a b : devrow) : bool :=
  String.ltb (initgt a) (initgt b) ||
  String.eqb (initgt a) (initgt b) && spec_name_ltb a b.

(** No element is followed by a strictly smaller one. *)
Fixpoint ascending (ltb : devrow -> devrow -> bool) (l : list devrow) : bool :=
  match l with
  | x :: (y :: _) as rest => negb (ltb y x) && ascending ltb rest
  | _ => true
  end.

(** [b] may follow [a] in a list sorted on [key]: the key of [b] is not
    smaller. *)
Definition key_le {A : Type} (key : A -> string) (a b : A) : Prop :=
  String.ltb (key b) (key a) = false.

(** The zone name of an initiator and a target. *)
Definition spec_zone_name (initiator target : devrow) : string :=
  "zon_" ++ node initiator ++ "_" ++ primaryif initiator ++ "_" ++
  node target.

(** Every [zoneAdd] of a stream names a zone that an earlier [zoneCreate]
    of the same stream created; [created] holds the names seen so far. *)
Fixpoint adds_follow_creates (created : list string) (stream : list command)
  : bool :=
  match stream with
  | [] => true
  | ZoneCreate zoname _ :: rest => adds_follow_creates (zoname :: created) rest
  | ZoneAdd zoname _ :: rest =>
      existsb (String.eqb zoname) created && adds_follow_creates created rest
  | _ :: rest => adds_follow_creates created rest
  end.

(** The line written for a row by the alias loop. *)
Definition aliline (devrow : devrow) : command :=
  AliCreate (alias_format devrow) (wwpn devrow).

Definition on_fabric_A (devrow : devrow) : bool :=
  String.eqb (fabric devrow) "A".

(** The command has [alias] as its alias argument. *)
Definition names_alias (alias : string) (c : command) : bool :=
  match c with
  | AliCreate a _ | ZoneCreate _ a | ZoneAdd _ a => String.eqb a alias
  | _ => false
  end.

(** [x] occurs before [y] in [l]. *)
Definition precedes {A : Type} (x y : A) (l : list A) : Prop :=
  exists l1 l2 l3, l = (l1 ++ x :: l2 ++ y :: l3)%list.

(* ================================================================= *)
(** ** Sample rows *)

Module Sample.

(** A host adapter with one port on each fabric, and a storage array
    with one controller port on each fabric. *)
Definition host1_p1 : devrow :=
  Devrow "host1" "hba1" "p1" "A" "I" "10:00:00:90:fa:00:00:01".
Definition host1_p2 : devrow :=
  Devrow "host1" "hba1" "p2" "B" "I" "10:00:00:90:fa:00:00:02".
Definition stor1_c1 : devrow :=
  Devrow "stor1" "c1" EmptyString "A" "T" "50:06:0e:80:05:00:00:01".
Definition stor1_c2 : devrow :=
  Devrow "stor1" "c2" EmptyString "B" "T" "50:06:0e:80:05:00:00:02".
Definition dual_fabric : list devrow :=
  [host1_p1; host1_p2; stor1_c1; stor1_c2].

(** A second controller port of the array on fabric A. *)
Definition stor1_c3 : devrow :=
  Devrow "stor1" "c3" EmptyString "A" "T" "50:06:0e:80:05:00:00:03".

(** Two rows with the same three names, both on fabric A. *)
Definition twin_a : devrow :=
  Devrow "host1" "hba1" EmptyString "A" "I" "10:00:00:90:fa:00:00:01".
Definition twin_b : devrow :=
  Devrow "host1" "hba1" EmptyString "A" "I" "10:00:00:90:fa:00:00:02".

(** The same port identifier written without and with colons. *)
Definition bare : devrow :=
  Devrow "host1" "hba1" EmptyString "A" "I" "10000090fa000001".
Definition punctuated : devrow :=
  Devrow "host2" "hba1" EmptyString "B" "I" "10:00:00:90:fa:00:00:01".

(** A row with a role that is neither I nor T, and a good row with the
    same port identifier. *)
Definition bad_role : devrow :=
  Devrow "host1" "hba1" EmptyString "A" "X" "10:00:00:90:fa:00:00:01".
Definition good_row : devrow :=
  Devrow "host2" "hba1" EmptyString "B" "I" "10:00:00:90:fa:00:00:01".

(** Node names of which one is a prefix of the other. *)
Definition esx1_b : devrow :=
  Devrow "esx1" "b" EmptyString "A" "T" "50:06:0e:80:05:00:00:01".
Definition esx10_a : devrow :=
  Devrow "esx10" "a" EmptyString "B" "T" "50:06:0e:80:05:00:00:02".

(** An array named stor1 and an array named stor10, all ports on
    fabric A. *)
Definition stor1_0 : devrow :=
  Devrow "stor1" "0" EmptyString "A" "T" "50:06:0e:80:05:00:00:03".
Definition stor10_a : devrow :=
  Devrow "stor10" "a" EmptyString "A" "T" "50:06:0e:80:05:00:00:02".
Definition stor1_b : devrow :=
  Devrow "stor1" "b" EmptyString "A" "T" "50:06:0e:80:05:00:00:01".

End Sample.

(* ================================================================= *)
(** ** Further definitions *)

(** The sixteen positions of the 23 character form that are not separator
    positions. *)
Definition digit_positions : list nat :=
  [0; 1; 3; 4; 6; 7; 9; 10; 12; 13; 15; 16; 18; 19; 21; 22].

Definition holds_hex_lower (s : string) (i : nat) : bool :=
  match String.get i s with
  | Some c => spec_hex_lower c
  | None => false
  end.

(** The identifier check selected by [strict] returns a WWID. *)
Definition wwid_accepted (strict wwid : string) : bool :=
  match snd (if String.eqb strict "S" then strictwwid wwid
             else loosewwid wwid) with
  | Some _ => true
  | None => false
  end.

(** The row passes the three tests of the per-row loop. *)
Definition row_passes (strict : string) (rec : devrow) : bool :=
  wwid_accepted strict (wwpn rec) &&
  (String.eqb (initgt rec) "I" || String.eqb (initgt rec) "T") &&
  (String.eqb (fabric rec) "A" || String.eqb (fabric rec) "B").

(** What the per-row loop prints for one row. *)
Definition row_reports (strict : string) (rec : devrow) : list diagnostic :=
  printed (check_row strict rec vars0).

(** What the duplicate-wwpn loop prints. *)
Fixpoint dup_wwpn_reports (all_fab : list devrow) (last_wwpn : string)
  : list diagnostic :=
  match all_fab with
  | [] => []
  | devrow :: rest =>
      if neq (wwpn devrow) last_wwpn
      then dup_wwpn_reports rest (wwpn devrow)
      else DuplicateWwpn (wwpn devrow) :: dup_wwpn_reports rest last_wwpn
  end.

(** What the duplicate-name loop prints. *)
Fixpoint dup_name_reports (all_fab : list devrow)
  (prv_node prv_iface prv_subif : string) : list diagnostic :=
  match all_fab with
  | [] => []
  | devrow :: rest =>
      (if String.eqb (node devrow) prv_node &&
          String.eqb (primaryif devrow) prv_iface &&
          String.eqb (subif devrow) prv_subif
       then [DuplicateName (node devrow) (primaryif devrow) (subif devrow)]
       else []) ++
      dup_name_reports rest (node devrow) (primaryif devrow) (subif devrow)
  end.

(** What the cable loop prints. *)
Fixpoint cable_reports (all_fab : list devrow) (fabriccmp : string)
  (last_devrow : option devrow) : list diagnostic :=
  match all_fab with
  | [] => []
  | devrow :: rest =>
      (if String.eqb (fabric devrow) fabriccmp
       then [CableMisconfiguration last_devrow devrow]
       else []) ++
      cable_reports rest (fabric devrow) (Some devrow)
  end.

(** The number of rows with port identifier [w]. *)
Definition count_wwpn (w : string) (l : list devrow) : nat :=
  List.length (filter (fun r => String.eqb (wwpn r) w) l).

Definition same_name (n i s : string) (r : devrow) : bool :=
  String.eqb (node r) n && String.eqb (primaryif r) i &&
  String.eqb (subif r) s.

(** The number of rows with the three names [n], [i], [s]. *)
Definition count_name (n i s : string) (l : list devrow) : nat :=
  List.length (filter (same_name n i s) l).

(** The number of rows on fabric [f]. *)
Definition count_fabric (f : string) (l : list devrow) : nat :=
  List.length (filter (fun r => String.eqb (fabric r) f) l).

(** The pass that prints a diagnostic: 1 for the per-row loop, 2 for the
    duplicate-wwpn loop, 3 for the duplicate-name loop, 4 for the cable
    loop. *)
Definition pass_of (d : diagnostic) : nat :=
  match d with
  | WwidInvalidLength _ | WwidColonNotWhereExpected _
  | WwidInvalidHexCharacter _ | InvalidInitiatorTarget _
  | InvalidFabricIdentifier _ => 1
  | DuplicateWwpn _ => 2
  | DuplicateName _ _ _ => 3
  | CableMisconfiguration _ _ => 4
  end.

(** One step of the zoning loops on a pair (initiator, target). *)
Definition pair_step (cfgname : string) (z : zvars) (p : devrow * devrow)
  : zvars :=
  zone_step cfgname (fst p) z (snd p).

(** The pair is on fabric A: both rows have fabric A. *)
Definition pair_on_A (p : devrow * devrow) : bool :=
  String.eqb (fabric (fst p)) (fabric (snd p)) &&
  String.eqb (fabric (fst p)) "A".

(** The pair goes to the fabric B file: the rows have the same fabric,
    which is not A. *)
Definition pair_on_B (p : devrow * devrow) : bool :=
  String.eqb (fabric (fst p)) (fabric (snd p)) &&
  negb (String.eqb (fabric (fst p)) "A").

(** The [zoneAdd] line of a pair. *)
Definition addline (p : devrow * devrow) : command :=
  ZoneAdd (spec_zone_name (fst p) (snd p)) (alias_format (snd p)).

Definition is_zoneadd (c : command) : bool :=
  match c with
  | ZoneAdd _ _ => true
  | _ => false
  end.

(** The names of the zones a stream creates, in order. *)
Fixpoint created_zones (stream : list command) : list string :=
  match stream with
  | [] => []
  | ZoneCreate zoname _ :: rest => zoname :: created_zones rest
  | _ :: rest => created_zones rest
  end.

(** The configuration lines for a list of zones: [cfgCreate] for the first,
    [cfgAdd] for the others. *)
Definition cfg_lines (cfgname : string) (zones : list string)
  : list command :=
  match zones with
  | [] => []
  | z :: rest => CfgCreate cfgname z :: map (CfgAdd cfgname) rest
  end.

(** A sequence of zone commands in which every [zoneCreate] is followed at
    once by a [zoneAdd] to the same zone, each command coming from a pair
    (initiator, target) that satisfies [ok]. *)
Inductive zone_stream (ok : devrow -> devrow -> Prop) : list command -> Prop :=
| zone_stream_nil : zone_stream ok []
| zone_stream_add i t rest :
    ok i t -> zone_stream ok rest ->
    zone_stream ok (ZoneAdd (spec_zone_name i t) (alias_format t) :: rest)
| zone_stream_create i t rest :
    ok i t -> zone_stream ok rest ->
    zone_stream ok (ZoneCreate (spec_zone_name i t) (alias_format i) ::
                    ZoneAdd (spec_zone_name i t) (alias_format t) :: rest).

(** The configuration file of a fabric follows its zone file. *)
Definition cfg_follows (cfgname : string) (z : zvars) : Prop :=
  cfga_count z = List.length (created_zones (afabzon z)) /\
  cfgb_count z = List.length (created_zones (bfabzon z)) /\
  afabcfg z =
  (afabcfg zvars0 ++ cfg_lines cfgname (created_zones (afabzon z)))%list /\
  bfabcfg z =
  (bfabcfg zvars0 ++ cfg_lines cfgname (created_zones (bfabzon z)))%list.

(** Both zone files are a heading and a well formed stream. *)
Definition zone_files_formed (okA okB : devrow -> devrow -> Prop)
  (z : zvars) : Prop :=
  (exists a, afabzon z = Header "Zone create commands for fabric A" :: a /\
             zone_stream okA a) /\
  (exists b, bfabzon z = Header "Zone create commands for fabric B" :: b /\
             zone_stream okB b).

(** The zone file a pair of fabric [f] is written to. *)
Definition zone_file_of (f : string) (z : zvars) : list command :=
  if String.eqb f "A" then afabzon z else bfabzon z.

(** The zone of the last pair has been created in the zone file of an
    initiator of [INI] that bears the last initiator names. *)
Definition last_zone_created (INI : list devrow) (z : zvars) : Prop :=
  forall n p t,
    last_ininode z = Some n -> last_iniprime z = Some p ->
    last_tgtnode z = Some t ->
    exists i, In i INI /\ node i = n /\ primaryif i = p /\
              In ("zon_" ++ n ++ "_" ++ p ++ "_" ++ t)
                 (created_zones (zone_file_of (fabric i) z)).

(** In both zone files every [zoneAdd] follows a [zoneCreate] of its
    zone. *)
Definition adds_ok (z : zvars) : Prop :=
  adds_follow_creates [] (afabzon z) = true /\
  adds_follow_creates [] (bfabzon z) = true.

(** The last character of [s] is a space. *)
Fixpoint ends_with_space (s : string) : bool :=
  match s with
  | EmptyString => false
  | String c rest =>
      match rest with
      | EmptyString => Ascii.eqb c " "
      | String _ _ => ends_with_space rest
      end
  end.

(** At most 10 characters, the last of which is no space. *)
Definition short_name (s : string) : bool :=
  Nat.leb (String.length s) 10 && negb (ends_with_space s).

Definition short_names (r : devrow) : bool :=
  short_name (node r) && short_name (primaryif r) && short_name (subif r).

(** The part of the cable sort key made of the three names. *)
Definition name_key (r : devrow) : string :=
  Py.ljust10 (node r) ++ Py.ljust10 (primaryif r) ++ Py.ljust10 (subif r).

(** Three rows, the first and the last with the same three names of 10
    characters, the second with names made of the same characters cut at
    other places. *)
Definition long_name_rows : list devrow :=
  [Devrow "nnnnnnnnnn" "iiiiiiiiii" "ssssssssss" "A" "I"
          "10:00:00:90:fa:00:00:01";
   Devrow "nnnnnnnnnni" "iiiiiiiiis" "sssssssss3" "B" "I"
          "10:00:00:90:fa:00:00:02";
   Devrow "nnnnnnnnnn" "iiiiiiiiii" "ssssssssss" "A" "I"
          "50:00:00:90:fa:00:00:03"].

(* ================================================================= *)
(** ** wwidfmt.py *)

(** [c.upper()] for an ASCII character. The program applies [upper] to
    [hexstring] only, which holds nothing but 0-9 and a-f. *)
Definition upper_ascii (c : ascii) : ascii :=
  let n := N_of_ascii c in
  if ((97 <=? n) && (n <=? 122))%N then ascii_of_N (n - 32) else c.

Fixpoint upper_str (s : string) : string :=
  match s with
  | EmptyString => EmptyString
  | String c rest => String (upper_ascii c) (upper_str rest)
  end.

Definition vmsfmt (hexstring : string) : string :=
  Py.slice 0 4 hexstring ++ "-" ++ Py.slice 4 8 hexstring ++ "-" ++
  Py.slice 8 12 hexstring ++ "-" ++ Py.slice 12 16 hexstring.

(** What has been printed, line by line, and what [pyperclip.copy] last
    put on the clipboard. *)
Record wvars := Wvars {
  wprinted : list string;
  clipboard : option string
}.

(** The body of the loop after the test for an empty entry. *)
Definition wwidfmt_entry (userstring : string) (w : wvars) : wvars :=
  let hexstring := hex_scan userstring EmptyString in
  if negb (Nat.eqb (String.length hexstring) 16) then
    Wvars (wprinted w ++ ["Input string does not contain 16 hex characters"])
          (clipboard w)
  else
    Wvars (wprinted w ++
           [brocadefmt hexstring; hexstring; upper_str hexstring;
            vmsfmt hexstring; EmptyString])%list
          (Some (brocadefmt hexstring)).

(** The loop over the entries typed at the prompt; it ends at the first
    empty entry ([exit()]), or when no entry is left. *)
Fixpoint wwidfmt (entries : list string) (w : wvars) : wvars :=
  match entries with
  | [] => w
  | userstring :: rest =>
      if String.eqb userstring EmptyString then w
      else wwidfmt rest (wwidfmt_entry userstring w)
  end.

(* ================================================================= *)
(** ** Reading the rows (Bfabric.py, the CSV and the XLSX branch) *)

(** [c.isspace()] for a code point below 256: the characters that
    [str.strip()] removes. *)
Definition is_space (c : ascii) : bool :=
  let n := N_of_ascii c in
  ((9 <=? n) && (n <=? 13) || (28 <=? n) && (n <=? 32) ||
   (n =? 133) || (n =? 160))%N.

Fixpoint lstrip (s : string) : string :=
  match s with
  | EmptyString => EmptyString
  | String c rest => if is_space c then lstrip rest else s
  end.

Fixpoint rstrip (s : string) : string :=
  match s with
  | EmptyString => EmptyString
  | String c rest =>
      match rstrip rest with
      | EmptyString => if is_space c then EmptyString else String c EmptyString
      | String d rest' => String c (String d rest')
      end
  end.

(** [s.strip()]. *)
Definition strip (s : string) : string := rstrip (lstrip s).

(** [s.lower()]. *)
Fixpoint lower_str (s : string) : string :=
  match s with
  | EmptyString => EmptyString
  | String c rest => String (Py.lower c) (lower_str rest)
  end.

(** A cell value of the sheet: [None], a text, or any other value (a
    number, a date), which has no [strip] or [upper]. *)
Inductive cell :=
| Blank
| Text (s : string)
| Other.

(** The six values [iter_rows] yields for a row of the sheet. *)
Definition xrow : Type := cell * cell * cell * cell * cell * cell.

(** What the body of the XLSX loop does with a row. *)
Inductive xstep :=
| Skipped
| Raised
| Appended (row : devrow).

Section Reading.

(** [upper] stands for [str.upper]; its results for three code points
    below 256 (the micro sign, the sharp s and the y with diaeresis) lie
    outside the characters modelled here, and nothing below depends on what
    it returns. *)
Variable upper : string -> string.

(** The six assignments at the head of the CSV loop; [None] when an index
    is out of range ([IndexError]). *)
Definition csv_fields (rec : list string) : option devrow :=
  match rec with
  | r0 :: r1 :: r2 :: r3 :: r4 :: r5 :: _ =>
      Some (Devrow (strip r0) (strip r1) (strip r2) (strip (upper r3))
                   (strip (upper r4)) (strip (lower_str r5)))
  | _ => None
  end.

(** [for rec in csv.reader(f)], with [header_passed] and [all_fab]
    threaded; [None] when the loop is left by an exception. *)
Fixpoint read_csv (recs : list (list string)) (header_passed : bool)
  (all_fab : list devrow) : option (list devrow) :=
  match recs with
  | [] => Some all_fab
  | rec :: rest =>
      match csv_fields rec with
      | None => None
      | Some row =>
          if negb header_passed then read_csv rest true all_fab
          else if Nat.eqb (String.length (node row)) 0
               then read_csv rest header_passed all_fab
               else read_csv rest header_passed (all_fab ++ [row])%list
      end
  end.

(** The body of the XLSX loop. *)
Definition xlsx_fields (rec : xrow) : xstep :=
  let '(c0, c1, c2, c3, c4, c5) := rec in
  match c0 with
  | Blank => Skipped
  | Other => Raised
  | Text s0 =>
      if String.eqb s0 EmptyString then Skipped
      else
        match c1, c2, c3, c4, c5 with
        | Text s1, Blank, Text s3, Text s4, Text s5 =>
            Appended (Devrow (strip s0) (strip s1) EmptyString
                             (strip (upper s3)) (strip (upper s4))
                             (strip (lower_str s5)))
        | Text s1, Text s2, Text s3, Text s4, Text s5 =>
            Appended (Devrow (strip s0) (strip s1) (strip s2)
                             (strip (upper s3)) (strip (upper s4))
                             (strip (lower_str s5)))
        | _, _, _, _, _ => Raised
        end
  end.

(** [for rec in xlsheet.iter_rows(min_row=2, ...)] over the rows after the
    first. *)
Fixpoint read_xlsx_rows (rows : list xrow) (all_fab : list devrow)
  : option (list devrow) :=
  match rows with
  | [] => Some all_fab
  | rec :: rest =>
      match xlsx_fields rec with
      | Skipped => read_xlsx_rows rest all_fab
      | Raised => None
      | Appended row => read_xlsx_rows rest (all_fab ++ [row])%list
      end
  end.

Definition read_xlsx (sheet : list xrow) : option (list devrow) :=
  read_xlsx_rows (tl sheet) [].

End Reading.

(** What the CSV loop appends for a record after the header. *)
Definition csv_kept (upper : string -> string) (rec : list string)
  : list devrow :=
  match csv_fields upper rec with
  | Some row => if Nat.eqb (String.length (node row)) 0 then [] else [row]
  | None => []
  end.

(** [str.upper] on ASCII text, to run the readers on sample input. *)
Definition upper_text : string -> string := upper_str.

(* ================================================================= *)
(** ** Definitions for the zone plan in tuple order and for the
       clipboard *)

(** Two targets of one node on fabric A; by the tuple (node, primary
    interface, secondary interface) the first is the smaller. *)
Definition stor1_c_2 : devrow :=
  Devrow "stor1" "c" "2" "A" "T" "50:06:0e:80:05:00:00:03".
Definition stor1_c1_0 : devrow :=
  Devrow "stor1" "c1" "0" "A" "T" "50:06:0e:80:05:00:00:04".

(** Two targets of different nodes on fabric A; by the tuple the first is
    the smaller. *)
Definition esx1_b_A : devrow :=
  Devrow "esx1" "b" EmptyString "A" "T" "50:06:0e:80:05:00:00:01".
Definition esx10_a_A : devrow :=
  Devrow "esx10" "a" EmptyString "A" "T" "50:06:0e:80:05:00:00:03".

(** The fabric A plan for one initiator and two targets on fabric A, the
    first target the smaller by the tuple: one [zoneCreate] and the
    [zoneAdd] of the first target, then the [zoneAdd] of the second when
    both have one node name, and a second [zoneCreate] otherwise. *)
Definition spec_zone_plan (I1 T1 T2 : devrow) : list command :=
  let z1 := spec_zone_name I1 T1 in
  let z2 := spec_zone_name I1 T2 in
  if String.eqb (node T1) (node T2)
  then [ZoneCreate z1 (alias_format I1); ZoneAdd z1 (alias_format T1);
        ZoneAdd z1 (alias_format T2)]
  else [ZoneCreate z1 (alias_format I1); ZoneAdd z1 (alias_format T1);
        ZoneCreate z2 (alias_format I1); ZoneAdd z2 (alias_format T2)].

(** The entry holds 16 hex digits. *)
Definition has16 (userstring : string) : bool :=
  Nat.eqb (String.length (hex_scan userstring EmptyString)) 16.

(** The entries before the first empty one. *)
Fixpoint typed_entries (entries : list string) : list string :=
  match entries with
  | [] => []
  | userstring :: rest =>
      if String.eqb userstring EmptyString then []
      else userstring :: typed_entries rest
  end.

(** The clipboard text after a session: the colon separated form of the
    last entry with 16 hex digits, or what was there before. *)
Definition spec_clipboard (entries : list string) (before : option string)
  : option string :=
  match rev (filter has16 (typed_entries entries)) with
  | userstring :: _ => Some (brocadefmt (hex_scan userstring EmptyString))
  | [] => before
  end.

(* ================================================================= *)
(** ** Properties of the identifier checks *)

Ltac each_char c :=
  destruct c as [[] [] [] [] [] [] [] []].

Lemma is_hex_spec (c : ascii) : is_hex c = spec_hex_lower c.
Proof. each_char c; reflexivity. Qed.

Lemma bad_nibble_spec (c : ascii) : bad_nibble c = negb (spec_hex_lower c).
Proof. each_char c; reflexivity. Qed.

Lemma append_assoc (a b c : string) : (a ++ b) ++ c = a ++ (b ++ c).
Proof. induction a as [|x a IH]; simpl; [reflexivity | now rewrite IH]. Qed.

Lemma append_empty_r (a : string) : a ++ EmptyString = a.
Proof. induction a as [|x a IH]; simpl; [reflexivity | now rewrite IH]. Qed.

Lemma length_string_of_list_ascii (l : list ascii) :
  String.length (string_of_list_ascii l) = List.length l.
Proof. induction l as [|a l IH]; simpl; [reflexivity | now rewrite IH]. Qed.

(** The scanning loop appends to [hexstring] the case-folded hex digits of
    what it reads, in order. *)
Lemma hex_scan_spec (wwid hexstring : string) :
  hex_scan wwid hexstring =
  hexstring ++ string_of_list_ascii (spec_hex_digits wwid).
Proof.
  revert hexstring.
  induction wwid as [|c wwid IH]; intros hexstring.
  - simpl. now rewrite append_empty_r.
  - unfold spec_hex_digits in *. simpl.
    rewrite is_hex_spec.
    destruct (spec_hex_lower (Py.lower c)).
    + rewrite IH, append_assoc. reflexivity.
    + apply IH.
Qed.

Lemma brocadefmt_render (digits : list ascii) :
  List.length digits = 16 ->
  brocadefmt (string_of_list_ascii digits) = spec_render digits.
Proof.
  intros H.
  do 16 (destruct digits as [|? digits]; [discriminate H|]).
  destruct digits; [reflexivity | discriminate H].
Qed.

(** C6. [loosewwid] succeeds exactly when the case-folded input holds 16
    hex digits (0-9, a-f), every other character ignored; it then returns
    these digits, in their order, as 8 colon separated pairs, and for any
    other count it prints the invalid-length diagnostic and returns
    [None]. *)
Theorem loosewwid_spec (raw : string) :
  loosewwid raw =
  if Nat.eqb (List.length (spec_hex_digits raw)) 16
  then ([], Some (spec_render (spec_hex_digits raw)))
  else ([WwidInvalidLength raw], None).
Proof.
  unfold loosewwid.
  rewrite hex_scan_spec. simpl.
  rewrite length_string_of_list_ascii.
  destruct (Nat.eqb (List.length (spec_hex_digits raw)) 16) eqn:E; simpl.
  - apply Nat.eqb_eq in E. now rewrite brocadefmt_render.
  - reflexivity.
Qed.

Lemma spec_hex_lower_not_bad (c : ascii) :
  spec_hex_lower c = true -> bad_nibble c = false.
Proof. intros H. now rewrite bad_nibble_spec, H. Qed.

(** A string of the strict shape with lower-case digits passes the three
    checks of [strictwwid]. *)
Lemma strictwwid_accepts (s : string) :
  spec_strict_shape spec_hex_lower s = true -> strictwwid s = ([], Some s).
Proof.
  unfold spec_strict_shape. intros H.
  apply andb_true_iff in H. destruct H as [Hlen H].
  apply Nat.eqb_eq in Hlen.
  do 23 (destruct s as [|? s]; [discriminate Hlen|]).
  destruct s; [|discriminate Hlen].
  cbn -[spec_hex_lower Ascii.eqb] in H.
  repeat (apply andb_true_iff in H; destruct H as [?Hc H]).
  repeat match goal with
         | E : Ascii.eqb _ ":" = true |- _ => apply Ascii.eqb_eq in E; subst
         | E : spec_hex_lower _ = true |- _ =>
             apply spec_hex_lower_not_bad in E
         end.
  unfold strictwwid. cbn.
  repeat match goal with
         | E : bad_nibble _ = false |- _ => rewrite E; clear E
         end.
  reflexivity.
Qed.

Lemma spec_render_shape (digits : list ascii) :
  List.length digits = 16 ->
  forallb spec_hex_lower digits = true ->
  spec_strict_shape spec_hex_lower (spec_render digits) = true.
Proof.
  intros Hlen H.
  do 16 (destruct digits as [|? digits]; [discriminate Hlen|]).
  destruct digits; [|discriminate Hlen].
  cbn -[spec_hex_lower] in H.
  repeat (apply andb_true_iff in H; destruct H as [?Hc H]).
  cbn -[spec_hex_lower].
  repeat match goal with
         | E : spec_hex_lower _ = true |- _ => rewrite E; clear E
         end.
  reflexivity.
Qed.

(** C5 (as amended). A 23 character string with colons exactly at the seven
    positions and a digit 0-9 or a lower-case letter a-f everywhere else is
    returned unchanged by [strictwwid], with nothing printed; in particular
    the rendered form of 16 such digits is returned unchanged. *)
Theorem strictwwid_lower_hex_roundtrip :
  (forall s, spec_strict_shape spec_hex_lower s = true ->
             strictwwid s = ([], Some s)) /\
  (forall digits, List.length digits = 16 ->
                  forallb spec_hex_lower digits = true ->
                  strictwwid (spec_render digits) =
                  ([], Some (spec_render digits))).
Proof.
  split.
  - apply strictwwid_accepts.
  - intros digits Hlen H. apply strictwwid_accepts.
    now apply spec_render_shape.
Qed.

Lemma strictwwid_lower_hex_roundtrip_witness :
  strictwwid "10:00:00:90:fa:6b:3c:d2" = ([], Some "10:00:00:90:fa:6b:3c:d2") /\
  strictwwid (spec_render (list_ascii_of_string "50060e8005aabb01")) =
  ([], Some "50:06:0e:80:05:aa:bb:01").
Proof.
  split.
  - apply (proj1 strictwwid_lower_hex_roundtrip "10:00:00:90:fa:6b:3c:d2").
    reflexivity.
  - apply (proj2 strictwwid_lower_hex_roundtrip
             (list_ascii_of_string "50060e8005aabb01")); reflexivity.
Defined.

(** C5, as first stated, fails: upper-case hex digits at the right places
    are of the stated shape, and [strictwwid] reports an invalid hex
    character and returns [None]. *)
Lemma strictwwid_rejects_upper_case :
  spec_strict_shape spec_hex_either_case "10:00:00:90:FA:6B:3C:D2" = true /\
  strictwwid "10:00:00:90:FA:6B:3C:D2" =
  ([WwidInvalidHexCharacter "10:00:00:90:FA:6B:3C:D2"], None).
Proof. split; reflexivity. Qed.

(** The colon test of [strictwwid] reports exactly the 23 character strings
    in which none of the seven positions holds a colon. *)
Lemma strictwwid_colon_report (s : string) :
  fst (strictwwid s) = [WwidColonNotWhereExpected s] <->
  String.length s = 23 /\
  forallb (fun i => negb (holds_colon s i)) spec_colon_positions = true.
Proof.
  unfold strictwwid.
  destruct (Nat.eqb (String.length s) 23) eqn:Hlen; simpl.
  - apply Nat.eqb_eq in Hlen.
    do 23 (destruct s as [|? s]; [discriminate Hlen|]).
    destruct s; [|discriminate Hlen].
    unfold neq. cbn -[Ascii.eqb has_bad_nibble].
    repeat match goal with
           | |- context [Ascii.eqb ?c ":"] => destruct (Ascii.eqb c ":")
           end; cbn -[has_bad_nibble];
      try match goal with
          | |- context [if ?b then _ else _] => destruct b
          end; simpl; intuition congruence.
  - apply Nat.eqb_neq in Hlen. split.
    + intros H. discriminate H.
    + intros [H _]. contradiction.
Qed.

(** C4. [strictwwid] reports a misplaced separator only when none of the
    seven positions holds a colon. With a dash at position 5 and colons at
    the other six, the string has 23 characters and a position without
    colon, yet nothing is printed and the string is returned as a valid
    WWID. *)
Theorem strictwwid_accepts_misplaced_separator :
  (forall s,
     fst (strictwwid s) = [WwidColonNotWhereExpected s] <->
     String.length s = 23 /\
     forallb (fun i => negb (holds_colon s i)) spec_colon_positions = true) /\
  spec_separator_misplaced "10:00-00:90:fa:6b:3c:d2" = true /\
  strictwwid "10:00-00:90:fa:6b:3c:d2" =
  ([], Some "10:00-00:90:fa:6b:3c:d2").
Proof.
  split; [exact strictwwid_colon_report|].
  split; reflexivity.
Qed.

(* ================================================================= *)
(** ** The error gate *)

Lemma flag_agrees_report (d : diagnostic) (ds : list diagnostic) (v : vars) :
  flag_agrees (set_errors_found (print (d :: ds) v)).
Proof.
  unfold flag_agrees, reported. simpl.
  destruct (printed v); reflexivity.
Qed.

Lemma print_nothing (v : vars) : print [] v = v.
Proof. destruct v. unfold print. simpl. now rewrite app_nil_r. Qed.

(** [strictwwid] prints one line when it returns [None] and nothing when
    it returns a WWID. *)
Lemma strictwwid_prints (wwid : string) :
  (exists d, strictwwid wwid = ([d], None)) \/
  strictwwid wwid = ([], Some wwid).
Proof.
  unfold strictwwid.
  repeat match goal with
         | |- context [if ?b then _ else _] => destruct b
         end; eauto.
Qed.

Lemma loosewwid_prints (wwid : string) :
  (exists d, loosewwid wwid = ([d], None)) \/
  (exists w, loosewwid wwid = ([], Some w)).
Proof.
  unfold loosewwid.
  destruct (negb _); eauto.
Qed.

Lemma check_initgt_fabric_agrees (rec : devrow) (w : string) (v : vars) :
  flag_agrees v -> flag_agrees (check_initgt_fabric rec w v).
Proof.
  intros H. unfold check_initgt_fabric.
  destruct (_ && _); [apply flag_agrees_report|].
  destruct (_ && _); [apply flag_agrees_report|].
  exact H.
Qed.

Lemma check_row_agrees (strict : string) (rec : devrow) (v : vars) :
  flag_agrees v -> flag_agrees (check_row strict rec v).
Proof.
  intros H. unfold check_row.
  destruct (String.eqb strict "S").
  - destruct (strictwwid_prints (wwpn rec)) as [[d E] | E]; rewrite E.
    + apply flag_agrees_report.
    + rewrite print_nothing. now apply check_initgt_fabric_agrees.
  - destruct (loosewwid_prints (wwpn rec)) as [[d E] | [w E]]; rewrite E.
    + apply flag_agrees_report.
    + rewrite print_nothing. now apply check_initgt_fabric_agrees.
Qed.

Lemma check_rows_agrees (strict : string) (all_fab : list devrow) (v : vars) :
  flag_agrees v -> flag_agrees (check_rows strict all_fab v).
Proof.
  revert v. unfold check_rows.
  induction all_fab as [|rec rest IH]; intros v H; simpl.
  - exact H.
  - apply IH. now apply check_row_agrees.
Qed.

Lemma dup_wwpn_loop_agrees (all_fab : list devrow) (last : string) (v : vars) :
  flag_agrees v -> flag_agrees (dup_wwpn_loop all_fab last v).
Proof.
  revert last v.
  induction all_fab as [|devrow rest IH]; intros last v H; simpl.
  - exact H.
  - destruct (neq _ _); apply IH; [exact H | apply flag_agrees_report].
Qed.

Lemma dup_name_loop_agrees (all_fab : list devrow) (n i s : string) (v : vars) :
  flag_agrees v -> flag_agrees (dup_name_loop all_fab n i s v).
Proof.
  revert n i s v.
  induction all_fab as [|devrow rest IH]; intros n i s v H; simpl.
  - exact H.
  - apply IH. destruct (_ && _); [|exact H].
    unfold flag_agrees, reported. simpl. destruct (printed v); reflexivity.
Qed.

Lemma cable_loop_agrees (all_fab : list devrow) (cmp : string)
  (last : option devrow) (v : vars) :
  flag_agrees v -> flag_agrees (cable_loop all_fab cmp last v).
Proof.
  revert cmp last v.
  induction all_fab as [|devrow rest IH]; intros cmp last v H; simpl.
  - exact H.
  - apply IH. destruct (String.eqb _ _); [apply flag_agrees_report | exact H].
Qed.

Lemma validate_agrees (strict cabchk : string) (all_fab : list devrow) :
  flag_agrees (snd (validate strict cabchk all_fab)).
Proof.
  unfold validate, cable_check. simpl.
  match goal with |- flag_agrees (if _ then cable_loop _ _ _ ?v else _) =>
    assert (H : flag_agrees v)
  end.
  { apply dup_name_loop_agrees, dup_wwpn_loop_agrees, check_rows_agrees.
    reflexivity. }
  destruct (_ && _); [now apply cable_loop_agrees | exact H].
Qed.

(** C1. Whatever the two options and the rows: when at least one
    diagnostic was printed (a cable warning included) the run ends with
    exit status 1 and none of the six files exists; when none was printed
    it ends with status 0 and all six files are written. *)
Theorem main_error_gate (strict cabchk today : string)
  (all_fab : list devrow) :
  match diagnostics (main strict cabchk today all_fab) with
  | _ :: _ =>
      exit_status (main strict cabchk today all_fab) = 1 /\
      files (main strict cabchk today all_fab) = removed
  | [] =>
      exit_status (main strict cabchk today all_fab) = 0 /\
      all_written (files (main strict cabchk today all_fab)) = true
  end.
Proof.
  pose proof (validate_agrees strict cabchk all_fab) as H.
  unfold main.
  destruct (validate strict cabchk all_fab) as [sorted v]. simpl in H.
  unfold flag_agrees, reported in H.
  destruct (errors_found v); simpl; destruct (printed v); try discriminate H;
    split; reflexivity.
Qed.

(* ================================================================= *)
(** ** The sorts *)

Section SortFacts.
Context {A : Type} (key : A -> string).

Lemma insert_perm (x : A) (l : list A) :
  Permutation (Py.insert key x l) (x :: l).
Proof.
  induction l as [|y l IH]; simpl.
  - reflexivity.
  - destruct (String.ltb (key y) (key x)).
    + rewrite IH. apply perm_swap.
    + reflexivity.
Qed.

Lemma sort_perm (l : list A) : Permutation (Py.sort key l) l.
Proof.
  induction l as [|x l IH]; simpl.
  - reflexivity.
  - rewrite insert_perm. now apply perm_skip.
Qed.
End SortFacts.

Lemma filter_perm {A : Type} (f : A -> bool) (l l' : list A) :
  Permutation l l' -> Permutation (filter f l) (filter f l').
Proof.
  induction 1 as [|x l l' _ IH|x y l|l l' l'' _ IH1 _ IH2]; simpl.
  - reflexivity.
  - destruct (f x); [now apply perm_skip | exact IH].
  - destruct (f x), (f y); try reflexivity. apply perm_swap.
  - now transitivity (filter f l').
Qed.

Section SortOrder.
Context {A : Type} (key : A -> string).

Lemma ltb_asym (s t : string) :
  String.ltb s t = true -> String.ltb t s = false.
Proof.
  unfold String.ltb. rewrite (String.compare_antisym t s).
  destruct (String.compare s t); simpl; congruence.
Qed.

Lemma insert_hd (x a : A) (l : list A) :
  key_le key a x -> HdRel (key_le key) a l ->
  HdRel (key_le key) a (Py.insert key x l).
Proof.
  intros Hax Hal. destruct l as [|y l]; simpl.
  - now constructor.
  - destruct (String.ltb (key y) (key x)); constructor.
    + now inversion Hal.
    + exact Hax.
Qed.

Lemma insert_sorted (x : A) (l : list A) :
  Sorted (key_le key) l -> Sorted (key_le key) (Py.insert key x l).
Proof.
  induction 1 as [|y l Hl IH Hy]; simpl.
  - repeat constructor.
  - destruct (String.ltb (key y) (key x)) eqn:E.
    + constructor; [exact IH|].
      apply insert_hd; [|exact Hy].
      unfold key_le. now apply ltb_asym.
    + constructor; [now constructor|]. constructor. exact E.
Qed.

(** The sort leaves no element followed by one with a smaller key. *)
Lemma sort_sorted (l : list A) : Sorted (key_le key) (Py.sort key l).
Proof.
  induction l as [|x l IH]; simpl.
  - constructor.
  - now apply insert_sorted.
Qed.
End SortOrder.

(** C9. Each sort is ascending in its key, the fields joined without a
    separator, and that is not the order of the tuples: with node names esx1
    and esx10 both sorts put the esx10 row first, although (esx1, b) is the
    smaller tuple. *)
Theorem sort_keys_not_tuple_order :
  (forall l, Sorted (key_le sort_ALIif) (Py.sort sort_ALIif l)) /\
  (forall l, Sorted (key_le sort_ITif) (Py.sort sort_ITif l)) /\
  Py.sort sort_ALIif [Sample.esx1_b; Sample.esx10_a] =
  [Sample.esx10_a; Sample.esx1_b] /\
  spec_name_ltb Sample.esx1_b Sample.esx10_a = true /\
  ascending spec_name_ltb
    (Py.sort sort_ALIif [Sample.esx1_b; Sample.esx10_a]) = false /\
  Py.sort sort_ITif [Sample.esx1_b; Sample.esx10_a] =
  [Sample.esx10_a; Sample.esx1_b] /\
  spec_role_name_ltb Sample.esx1_b Sample.esx10_a = true /\
  ascending spec_role_name_ltb
    (Py.sort sort_ITif [Sample.esx1_b; Sample.esx10_a]) = false.
Proof.
  split; [intros l; apply sort_sorted|].
  split; [intros l; apply sort_sorted|].
  repeat split; reflexivity.
Qed.

(** The pre-zoning sort puts the stor10 port between the two stor1 ports,
    and the zone of stor1 is created twice. *)
Lemma split_node_zone_created_twice :
  main "S" "N" "2020-06-27"
       [Sample.host1_p1; Sample.stor1_b; Sample.stor10_a; Sample.stor1_0] =
  Outcome 0 []
    (Folder
       (Some [Header "Alias create commands for fabric A";
              AliCreate "ali_host1_hba1_p1_FA" "10:00:00:90:fa:00:00:01";
              AliCreate "ali_stor1_0_FA" "50:06:0e:80:05:00:00:03";
              AliCreate "ali_stor10_a_FA" "50:06:0e:80:05:00:00:02";
              AliCreate "ali_stor1_b_FA" "50:06:0e:80:05:00:00:01"])
       (Some [Header "Alias create commands for fabric B"])
       (Some [Header "Zone create commands for fabric A";
              ZoneCreate "zon_host1_hba1_stor1" "ali_host1_hba1_p1_FA";
              ZoneAdd "zon_host1_hba1_stor1" "ali_stor1_0_FA";
              ZoneCreate "zon_host1_hba1_stor10" "ali_host1_hba1_p1_FA";
              ZoneAdd "zon_host1_hba1_stor10" "ali_stor10_a_FA";
              ZoneCreate "zon_host1_hba1_stor1" "ali_host1_hba1_p1_FA";
              ZoneAdd "zon_host1_hba1_stor1" "ali_stor1_b_FA"])
       (Some [Header "Zone create commands for fabric B"])
       (Some [Header "Switch config commands for fabric A"; CfgClear;
              CfgDisable;
              CfgCreate "cfg2020-06-27" "zon_host1_hba1_stor1";
              CfgAdd "cfg2020-06-27" "zon_host1_hba1_stor10";
              CfgAdd "cfg2020-06-27" "zon_host1_hba1_stor1"; CfgSave])
       (Some [Header "Switch config commands for fabric B"; CfgClear;
              CfgDisable; CfgSave]))
    4.
Proof. reflexivity. Qed.

(* ================================================================= *)
(** ** What the validation passes leave in [all_fab] *)

(** The list handed to the later sections holds the rows that were read:
    none is dropped and no field is rewritten. *)
Lemma validate_keeps_rows (strict cabchk : string) (all_fab : list devrow) :
  Permutation (fst (validate strict cabchk all_fab)) all_fab.
Proof. unfold validate. simpl. now rewrite !sort_perm. Qed.

Lemma alias_fold_files (l : list devrow) (a : avars) :
  afabali (fold_left alias_step l a) =
  (afabali a ++ map aliline (filter on_fabric_A l))%list /\
  bfabali (fold_left alias_step l a) =
  (bfabali a ++
   map aliline (filter (fun r => negb (on_fabric_A r)) l))%list.
Proof.
  revert a. induction l as [|r l IH]; intros a; simpl.
  - now rewrite !app_nil_r.
  - destruct (IH (alias_step a r)) as [EA EB]. rewrite EA, EB.
    unfold alias_step, on_fabric_A, aliline.
    destruct (String.eqb (fabric r) "A"); simpl;
      rewrite <- ?app_assoc; split; reflexivity.
Qed.

(** Each alias file is its heading and one [aliCreate] per row of its
    fabric, carrying field [wwpn] of the row. *)
Lemma emit_alias_files (cfgname : string) (all_fab : list devrow) :
  Afab_ali (emit cfgname all_fab) =
  Some (Header "Alias create commands for fabric A" ::
        map aliline (filter on_fabric_A (Py.sort sort_ALIif all_fab))) /\
  Bfab_ali (emit cfgname all_fab) =
  Some (Header "Alias create commands for fabric B" ::
        map aliline (filter (fun r => negb (on_fabric_A r))
                            (Py.sort sort_ALIif all_fab))).
Proof.
  unfold emit. cbn [Afab_ali Bfab_ali]. unfold alias_loop.
  destruct (alias_fold_files (Py.sort sort_ALIif all_fab) avars0) as [EA EB].
  rewrite EA, EB. split; reflexivity.
Qed.

(** C2. Under loose checking the rows leave validation with the [wwpn]
    they were read with, and [aliCreate] carries that field. For a port
    identifier typed without colons, [loosewwid] returns the colon separated
    form, yet the alias file holds the text as typed, and a second row with
    the same identifier written with colons is not reported as a
    duplicate. *)
Theorem loose_result_not_stored :
  (forall cabchk all_fab,
     Permutation (fst (validate "L" cabchk all_fab)) all_fab) /\
  (forall cfgname all_fab,
     Afab_ali (emit cfgname all_fab) =
     Some (Header "Alias create commands for fabric A" ::
           map aliline (filter on_fabric_A (Py.sort sort_ALIif all_fab)))) /\
  snd (loosewwid (wwpn Sample.bare)) = Some "10:00:00:90:fa:00:00:01" /\
  diagnostics (main "L" "N" "2020-06-27" [Sample.bare; Sample.punctuated])
  = [] /\
  Afab_ali (files (main "L" "N" "2020-06-27"
                        [Sample.bare; Sample.punctuated])) =
  Some [Header "Alias create commands for fabric A";
        AliCreate "ali_host1_hba1_FA" "10000090fa000001"].
Proof.
  split; [intros cabchk all_fab; apply validate_keeps_rows|].
  split; [intros cfgname all_fab; apply emit_alias_files|].
  repeat split; reflexivity.
Qed.

(** C7. Every row that was read is in the list used by the passes over the
    whole list, whatever the per-row checks found. Under strict checking a
    row that fails the role test is still compared by the duplicate-wwpn
    pass, which reports its identifier against a second row that is valid
    on its own. *)
Theorem failed_row_stays_in_all_fab :
  (forall strict cabchk all_fab,
     Permutation (fst (validate strict cabchk all_fab)) all_fab) /\
  check_row "S" Sample.bad_role vars0 =
  Vars true 0 false None [InvalidInitiatorTarget "10:00:00:90:fa:00:00:01"] /\
  diagnostics (main "S" "N" "2020-06-27" [Sample.good_row]) = [] /\
  diagnostics (main "S" "N" "2020-06-27" [Sample.bad_role; Sample.good_row]) =
  [InvalidInitiatorTarget "10:00:00:90:fa:00:00:01";
   DuplicateWwpn "10:00:00:90:fa:00:00:01"].
Proof.
  split; [intros strict cabchk all_fab; apply validate_keeps_rows|].
  repeat split; reflexivity.
Qed.

(* ================================================================= *)
(** ** The duplicate-name flag *)

Lemma check_row_dupname_error (strict : string) (rec : devrow) (v : vars) :
  dupname_error (check_row strict rec v) = dupname_error v.
Proof.
  unfold check_row, check_initgt_fabric.
  destruct (String.eqb strict "S");
    [destruct (strictwwid _) as [out [w|]]
    |destruct (loosewwid _) as [out [w|]]];
    repeat match goal with
           | |- context [if ?b then _ else _] => destruct b
           end; reflexivity.
Qed.

Lemma check_rows_dupname_error (strict : string) (all_fab : list devrow)
  (v : vars) :
  dupname_error (check_rows strict all_fab v) = dupname_error v.
Proof.
  revert v. unfold check_rows.
  induction all_fab as [|rec rest IH]; intros v; simpl.
  - reflexivity.
  - now rewrite IH, check_row_dupname_error.
Qed.

Lemma dup_wwpn_loop_dupname_error (all_fab : list devrow) (last : string)
  (v : vars) :
  dupname_error (dup_wwpn_loop all_fab last v) = dupname_error v.
Proof.
  revert last v.
  induction all_fab as [|devrow rest IH]; intros last v; simpl.
  - reflexivity.
  - destruct (neq _ _); now rewrite IH.
Qed.

Lemma dup_name_loop_dupname_error (all_fab : list devrow) (n i s : string)
  (v : vars) :
  dupname_error (dup_name_loop all_fab n i s v) = dupname_error v.
Proof.
  revert n i s v.
  induction all_fab as [|devrow rest IH]; intros n i s v; simpl.
  - reflexivity.
  - rewrite IH. now destruct (_ && _).
Qed.

(** With the cable check requested, the cable loop runs whatever the
    duplicate-name loop found. *)
Lemma cable_loop_always_runs (strict : string) (all_fab : list devrow) :
  let sorted := Py.sort sort_cabkeys (Py.sort sort_WWPN all_fab) in
  snd (validate strict "Y" all_fab) =
  cable_loop sorted " " None
    (dup_name_loop sorted " " " " " "
       (dup_wwpn_loop (Py.sort sort_WWPN all_fab) EmptyString
          (check_rows strict all_fab vars0))).
Proof.
  unfold validate, cable_check. simpl.
  now rewrite dup_name_loop_dupname_error, dup_wwpn_loop_dupname_error,
    check_rows_dupname_error.
Qed.

(** C3. With the cable check requested the cable loop runs whatever the
    duplicate-name loop found. For two rows with the same three names on
    the same fabric the duplicate name is reported, and then the cable
    misconfiguration for the same pair. *)
Theorem cable_check_not_bypassed :
  (forall strict all_fab,
     snd (validate strict "Y" all_fab) =
     cable_loop (Py.sort sort_cabkeys (Py.sort sort_WWPN all_fab)) " " None
       (dup_name_loop (Py.sort sort_cabkeys (Py.sort sort_WWPN all_fab))
          " " " " " "
          (dup_wwpn_loop (Py.sort sort_WWPN all_fab) EmptyString
             (check_rows strict all_fab vars0)))) /\
  diagnostics (main "S" "Y" "2020-06-27" [Sample.twin_a; Sample.twin_b]) =
  [DuplicateName "host1" "hba1" EmptyString;
   CableMisconfiguration (Some Sample.twin_a) Sample.twin_b].
Proof.
  split.
  - intros strict all_fab. apply cable_loop_always_runs.
  - reflexivity.
Qed.

(* ================================================================= *)
(** ** Zone commands of the two fabrics *)

(** An initiator port on each fabric with one node and interface name, a
    target port on each fabric with one node name: the pair of fabric B
    follows the pair of fabric A with the same three names, and the fabric B
    zone file gets a [zoneAdd] only. *)
Lemma zone_shared_last
  (cfgname n p s1 s2 w1 w2 t x1 y1 v1 x2 y2 v2 : string) :
  bfabzon (zone_loop cfgname
             [Devrow n p s1 "A" "I" w1; Devrow n p s2 "B" "I" w2]
             [Devrow t x1 y1 "A" "T" v1; Devrow t x2 y2 "B" "T" v2]) =
  [Header "Zone create commands for fabric B";
   ZoneAdd ("zon_" ++ n ++ "_" ++ p ++ "_" ++ t)
           (alias_format (Devrow t x2 y2 "B" "T" v2))].
Proof.
  unfold zone_loop, zone_step. simpl.
  rewrite !String.eqb_refl. reflexivity.
Qed.

(** C10. A host adapter and an array, each with one port per fabric. The
    rows pass every check, with and without the cable check; the fabric B
    zone file then holds a single [zoneAdd], for a zone that only the
    fabric A file creates. The same happens for any names of that
    pattern. *)
Theorem zoneadd_without_zonecreate :
  (forall cfgname n p s1 s2 w1 w2 t x1 y1 v1 x2 y2 v2,
     adds_follow_creates []
       (bfabzon (zone_loop cfgname
                   [Devrow n p s1 "A" "I" w1; Devrow n p s2 "B" "I" w2]
                   [Devrow t x1 y1 "A" "T" v1; Devrow t x2 y2 "B" "T" v2]))
     = false) /\
  diagnostics (main "S" "Y" "2020-06-27" Sample.dual_fabric) = [] /\
  main "S" "N" "2020-06-27" Sample.dual_fabric =
  main "S" "Y" "2020-06-27" Sample.dual_fabric /\
  Afab_zon (files (main "S" "Y" "2020-06-27" Sample.dual_fabric)) =
  Some [Header "Zone create commands for fabric A";
        ZoneCreate "zon_host1_hba1_stor1" "ali_host1_hba1_p1_FA";
        ZoneAdd "zon_host1_hba1_stor1" "ali_stor1_c1_FA"] /\
  Bfab_zon (files (main "S" "Y" "2020-06-27" Sample.dual_fabric)) =
  Some [Header "Zone create commands for fabric B";
        ZoneAdd "zon_host1_hba1_stor1" "ali_stor1_c2_FB"] /\
  adds_follow_creates []
    [Header "Zone create commands for fabric B";
     ZoneAdd "zon_host1_hba1_stor1" "ali_stor1_c2_FB"] = false.
Proof.
  split.
  - intros. now rewrite zone_shared_last.
  - repeat split; reflexivity.
Qed.

(* ================================================================= *)
(** ** The zone plan of one initiator *)

Lemma length_append (a b : string) :
  String.length (a ++ b) = String.length a + String.length b.
Proof. induction a as [|c a IH]; simpl; [reflexivity | now rewrite IH]. Qed.

(** Two texts with tails of equal length are equal only if the tails are. *)
Lemma append_tail_eq (x y a b : string) :
  String.length a = String.length b -> x ++ a = y ++ b -> a = b.
Proof.
  revert y. induction x as [|c x IH]; intros [|d y] Hlen H; simpl in H.
  - exact H.
  - exfalso. apply (f_equal String.length) in H. simpl in H.
    rewrite length_append in H. lia.
  - exfalso. apply (f_equal String.length) in H. simpl in H.
    rewrite length_append in H. lia.
  - injection H as _ H. now apply (IH y).
Qed.

(** An alias name ends with the fabric letter of its row. *)
Lemma alias_format_tail (r : devrow) :
  exists stem, alias_format r = stem ++ "_F" ++ fabric r.
Proof.
  unfold alias_format.
  destruct (neq (primaryif r) EmptyString), (neq (subif r) EmptyString);
    eexists; reflexivity.
Qed.

Lemma alias_format_fabric (r r' : devrow) :
  fabric r = "A" -> fabric r' = "B" ->
  String.eqb (alias_format r) (alias_format r') = false.
Proof.
  intros Hr Hr'. apply String.eqb_neq. intros E.
  destruct (alias_format_tail r) as [s Hs].
  destruct (alias_format_tail r') as [s' Hs'].
  rewrite Hs, Hs', Hr, Hr' in E.
  apply append_tail_eq in E; [discriminate E | reflexivity].
Qed.

(** A target on the other fabric leaves the zoning variables alone. *)
Lemma zone_step_other_fabric (cfgname : string) (inirow tgtrow : devrow)
  (z : zvars) :
  fabric inirow = "A" -> fabric tgtrow = "B" ->
  zone_step cfgname inirow z tgtrow = z.
Proof. intros Hi Ht. unfold zone_step. now rewrite Hi, Ht. Qed.

(** The first target of fabric A opens a zone. *)
Lemma zone_step_first (cfgname : string) (inirow tgtrow : devrow) :
  fabric inirow = "A" -> fabric tgtrow = "A" ->
  zone_step cfgname inirow zvars0 tgtrow =
  Zvars (Some (node inirow)) (Some (primaryif inirow)) (Some (node tgtrow))
        1 0
        [Header "Zone create commands for fabric A";
         ZoneCreate (spec_zone_name inirow tgtrow) (alias_format inirow);
         ZoneAdd (spec_zone_name inirow tgtrow) (alias_format tgtrow)]
        (bfabzon zvars0)
        (afabcfg zvars0 ++
         [CfgCreate cfgname (spec_zone_name inirow tgtrow)])%list
        (bfabcfg zvars0).
Proof. intros Hi Ht. unfold zone_step. rewrite Hi, Ht. reflexivity. Qed.

(** A further target of fabric A, after a pair of the same initiator. *)
Lemma zone_step_next (cfgname : string) (inirow tgtrow : devrow)
  (tnode : string) (ca cb : nat) (az bz ac bc : list command) :
  fabric inirow = "A" -> fabric tgtrow = "A" ->
  afabzon (zone_step cfgname inirow
             (Zvars (Some (node inirow)) (Some (primaryif inirow))
                    (Some tnode) ca cb az bz ac bc) tgtrow) =
  (az ++ if String.eqb (node tgtrow) tnode
         then [ZoneAdd (spec_zone_name inirow tgtrow) (alias_format tgtrow)]
         else [ZoneCreate (spec_zone_name inirow tgtrow) (alias_format inirow);
               ZoneAdd (spec_zone_name inirow tgtrow) (alias_format tgtrow)]
  )%list.
Proof.
  intros Hi Ht. unfold zone_step. rewrite Hi, Ht. simpl.
  rewrite !String.eqb_refl. simpl.
  destruct (String.eqb (node tgtrow) tnode); reflexivity.
Qed.

(** The fabric A zone file for one initiator and two fabric A targets, a
    fabric B target standing anywhere among them. *)
Lemma zone_loop_one_initiator (cfgname : string) (I1 T1 T2 T3 : devrow)
  (TGT : list devrow) :
  fabric I1 = "A" -> fabric T1 = "A" -> fabric T2 = "A" -> fabric T3 = "B" ->
  TGT = [T3; T1; T2] \/ TGT = [T1; T3; T2] \/ TGT = [T1; T2; T3] ->
  afabzon (zone_loop cfgname [I1] TGT) =
  Header "Zone create commands for fabric A" ::
  ZoneCreate (spec_zone_name I1 T1) (alias_format I1) ::
  ZoneAdd (spec_zone_name I1 T1) (alias_format T1) ::
  (if String.eqb (node T2) (node T1)
   then [ZoneAdd (spec_zone_name I1 T2) (alias_format T2)]
   else [ZoneCreate (spec_zone_name I1 T2) (alias_format I1);
         ZoneAdd (spec_zone_name I1 T2) (alias_format T2)]).
Proof.
  intros HI H1 H2 H3 [-> | [-> | ->]]; unfold zone_loop; simpl.
  - rewrite (zone_step_other_fabric _ _ _ _ HI H3).
    rewrite (zone_step_first _ _ _ HI H1).
    now rewrite (zone_step_next _ _ _ _ _ _ _ _ _ _ HI H2).
  - rewrite (zone_step_first _ _ _ HI H1).
    rewrite (zone_step_other_fabric _ _ _ _ HI H3).
    now rewrite (zone_step_next _ _ _ _ _ _ _ _ _ _ HI H2).
  - rewrite (zone_step_first _ _ _ HI H1).
    remember (zone_step cfgname I1 _ T2) as z eqn:Ez.
    rewrite (zone_step_other_fabric _ _ _ _ HI H3).
    subst z. now rewrite (zone_step_next _ _ _ _ _ _ _ _ _ _ HI H2).
Qed.

Lemma is_initiator_I (r : devrow) : initgt r = "I" -> is_initiator r = true.
Proof. unfold is_initiator. now intros ->. Qed.

Lemma is_initiator_T (r : devrow) : initgt r = "T" -> is_initiator r = false.
Proof. unfold is_initiator. now intros ->. Qed.

(** The two lists the zoning loops run over, for one initiator and three
    targets of which [T1] is sorted before [T2]. *)
Lemma split_one_initiator (I1 T1 T2 T3 : devrow) (sorted : list devrow) :
  initgt I1 = "I" -> initgt T1 = "T" -> initgt T2 = "T" -> initgt T3 = "T" ->
  Permutation sorted [I1; T1; T2; T3] ->
  precedes T1 T2 sorted ->
  INI_list sorted = [I1] /\
  (TGT_list sorted = [T3; T1; T2] \/ TGT_list sorted = [T1; T3; T2] \/
   TGT_list sorted = [T1; T2; T3]).
Proof.
  intros HI H1 H2 H3 Hperm (l1 & l2 & l3 & Hsplit).
  pose proof (is_initiator_I _ HI) as EI.
  pose proof (is_initiator_T _ H1) as E1.
  pose proof (is_initiator_T _ H2) as E2.
  pose proof (is_initiator_T _ H3) as E3.
  split.
  - apply (filter_perm is_initiator) in Hperm.
    simpl in Hperm. rewrite EI, E1, E2, E3 in Hperm.
    apply Permutation_sym, Permutation_length_1_inv in Hperm. exact Hperm.
  - unfold TGT_list.
    set (f := filter (fun devrow => negb (is_initiator devrow))).
    apply (filter_perm (fun devrow => negb (is_initiator devrow))) in Hperm.
    fold f in Hperm.
    assert (Hf : f sorted = (f l1 ++ T1 :: f l2 ++ T2 :: f l3)%list).
    { subst sorted. unfold f.
      rewrite filter_app. simpl. rewrite E1. simpl.
      rewrite filter_app. simpl. rewrite E2. reflexivity. }
    rewrite Hf in *.
    unfold f in Hperm at 4. simpl in Hperm. rewrite EI, E1, E2, E3 in Hperm.
    simpl in Hperm.
    apply Permutation_sym, Permutation_cons_app_inv in Hperm.
    rewrite app_assoc in Hperm.
    apply Permutation_cons_app_inv, Permutation_length_1_inv in Hperm.
    apply app_eq_unit in Hperm.
    destruct Hperm as [[E12 E3'] | [E12 E3']].
    + apply app_eq_nil in E12. destruct E12 as [-> ->]. rewrite E3'.
      right. right. reflexivity.
    + rewrite E3'. apply app_eq_unit in E12.
      destruct E12 as [[-> ->] | [-> ->]].
      * right. left. reflexivity.
      * left. reflexivity.
Qed.

(** X30. One initiator [I1] on fabric A, targets [T1] and [T2] on fabric A,
    and a target [T3] on fabric B, the rows in any order, with [T1] before
    [T2] in the list as the program sorts it before zoning, on the role and
    the names joined without a separator (which need not be the order of
    the tuples). The fabric A zone file holds, after its heading, one
    [zoneCreate] for the zone of ([I1] node, [I1] interface, [T1] node) and
    the [zoneAdd] of [T1]; then the [zoneAdd] of [T2] to the same zone when
    both targets have one node name, and otherwise a second [zoneCreate]
    with the [zoneAdd] of [T2]; the alias of [T3] is in none of them. *)
Theorem zone_plan_one_initiator (cfgname : string) (I1 T1 T2 T3 : devrow)
  (all_fab : list devrow) :
  initgt I1 = "I" -> fabric I1 = "A" ->
  initgt T1 = "T" -> fabric T1 = "A" ->
  initgt T2 = "T" -> fabric T2 = "A" ->
  initgt T3 = "T" -> fabric T3 = "B" ->
  Permutation all_fab [I1; T1; T2; T3] ->
  precedes T1 T2 (Py.sort sort_ITif (Py.sort sort_ALIif all_fab)) ->
  let z1 := spec_zone_name I1 T1 in
  let z2 := spec_zone_name I1 T2 in
  let plan :=
    if String.eqb (node T1) (node T2)
    then [ZoneCreate z1 (alias_format I1); ZoneAdd z1 (alias_format T1);
          ZoneAdd z1 (alias_format T2)]
    else [ZoneCreate z1 (alias_format I1); ZoneAdd z1 (alias_format T1);
          ZoneCreate z2 (alias_format I1); ZoneAdd z2 (alias_format T2)] in
  Afab_zon (emit cfgname all_fab) =
  Some (Header "Zone create commands for fabric A" :: plan) /\
  forallb (fun c => negb (names_alias (alias_format T3) c)) plan = true.
Proof.
  intros HI FI H1 F1 H2 F2 H3 F3 Hperm Hprec z1 z2 plan.
  assert (Hsorted :
    Permutation (Py.sort sort_ITif (Py.sort sort_ALIif all_fab))
                [I1; T1; T2; T3]).
  { now rewrite !sort_perm. }
  destruct (split_one_initiator _ _ _ _ _ HI H1 H2 H3 Hsorted Hprec)
    as [EINI ETGT].
  split.
  - unfold emit. cbn [Afab_zon]. rewrite EINI.
    rewrite (zone_loop_one_initiator _ _ _ _ _ _ FI F1 F2 F3 ETGT).
    subst plan z1 z2. rewrite (String.eqb_sym (node T2)).
    destruct (String.eqb (node T1) (node T2)) eqn:E; [|reflexivity].
    apply String.eqb_eq in E. unfold spec_zone_name. now rewrite E.
  - subst plan. destruct (String.eqb (node T1) (node T2)); simpl;
      rewrite ?(alias_format_fabric _ _ FI F3),
              ?(alias_format_fabric _ _ F1 F3),
              ?(alias_format_fabric _ _ F2 F3); reflexivity.
Qed.

Lemma zone_plan_one_initiator_witness :
  Afab_zon (emit "cfg2020-06-27"
              [Sample.stor1_c2; Sample.stor1_c3; Sample.stor1_c1;
               Sample.host1_p1]) =
  Some [Header "Zone create commands for fabric A";
        ZoneCreate "zon_host1_hba1_stor1" "ali_host1_hba1_p1_FA";
        ZoneAdd "zon_host1_hba1_stor1" "ali_stor1_c1_FA";
        ZoneAdd "zon_host1_hba1_stor1" "ali_stor1_c3_FA"].
Proof.
  apply (zone_plan_one_initiator "cfg2020-06-27"
           Sample.host1_p1 Sample.stor1_c1 Sample.stor1_c3 Sample.stor1_c2
           [Sample.stor1_c2; Sample.stor1_c3; Sample.stor1_c1;
            Sample.host1_p1]); try reflexivity.
  - apply Permutation_sym.
    apply (Permutation_cons_app [Sample.stor1_c2; Sample.stor1_c3;
                                 Sample.stor1_c1] []).
    apply (Permutation_cons_app [Sample.stor1_c2; Sample.stor1_c3] []).
    apply perm_swap.
  - exists [Sample.host1_p1], [Sample.stor1_c2], []. reflexivity.
Defined.

(** C8. One initiator on fabric A, two targets on fabric A and one on
    fabric B; the rows pass every check. With the targets stor1/c/2 and
    stor1/c1/0, of one node, the first is the smaller tuple, yet the fabric
    A zone file adds the second before the first. With the targets esx1/b
    and esx10/a, of two nodes, the first is the smaller tuple, yet the first
    [zoneCreate] is for the node of the second. In both cases the file is
    not the plan for the targets in tuple order: the pre-zoning sort
    compares the fields joined without a separator. *)
Theorem zone_plan_not_in_tuple_order :
  let run1 := main "S" "N" "2020-06-27"
                [Sample.host1_p1; stor1_c_2; stor1_c1_0; Sample.stor1_c2] in
  let run2 := main "S" "N" "2020-06-27"
                [Sample.host1_p1; esx1_b_A; esx10_a_A; Sample.stor1_c2] in
  (spec_role_name_ltb stor1_c_2 stor1_c1_0 = true /\
   node stor1_c_2 = node stor1_c1_0 /\
   diagnostics run1 = [] /\
   Afab_zon (files run1) =
   Some [Header "Zone create commands for fabric A";
         ZoneCreate "zon_host1_hba1_stor1" "ali_host1_hba1_p1_FA";
         ZoneAdd "zon_host1_hba1_stor1" (alias_format stor1_c1_0);
         ZoneAdd "zon_host1_hba1_stor1" (alias_format stor1_c_2)] /\
   Afab_zon (files run1) <>
   Some (Header "Zone create commands for fabric A"
         :: spec_zone_plan Sample.host1_p1 stor1_c_2 stor1_c1_0)) /\
  (spec_role_name_ltb esx1_b_A esx10_a_A = true /\
   node esx1_b_A <> node esx10_a_A /\
   diagnostics run2 = [] /\
   Afab_zon (files run2) =
   Some [Header "Zone create commands for fabric A";
         ZoneCreate "zon_host1_hba1_esx10" "ali_host1_hba1_p1_FA";
         ZoneAdd "zon_host1_hba1_esx10" (alias_format esx10_a_A);
         ZoneCreate "zon_host1_hba1_esx1" "ali_host1_hba1_p1_FA";
         ZoneAdd "zon_host1_hba1_esx1" (alias_format esx1_b_A)] /\
   Afab_zon (files run2) <>
   Some (Header "Zone create commands for fabric A"
         :: spec_zone_plan Sample.host1_p1 esx1_b_A esx10_a_A)).
Proof.
  cbv zeta.
  repeat split; try reflexivity; intros H; vm_compute in H; discriminate H.
Qed.

(* ================================================================= *)
(** ** More on the identifier checks *)

(** The nibble loop finds nothing exactly when every character is one of
    0-9, a-f. *)
Lemma has_bad_nibble_forallb (hexwid : string) :
  has_bad_nibble hexwid =
  negb (forallb spec_hex_lower (list_ascii_of_string hexwid)).
Proof.
  induction hexwid as [|c hexwid IH]; simpl.
  - reflexivity.
  - rewrite bad_nibble_spec, IH. now destruct (spec_hex_lower c).
Qed.

(** X1. [strictwwid] returns its argument exactly for the strings of 23
    characters that hold a colon in at least one of the seven separator
    positions and one of 0-9, a-f in each of the sixteen digit positions;
    what the other separator positions hold is not examined. *)
Theorem strictwwid_accepts_iff (s : string) :
  strictwwid s = ([], Some s) <->
  String.length s = 23 /\
  existsb (holds_colon s) spec_colon_positions = true /\
  forallb (holds_hex_lower s) digit_positions = true.
Proof.
  unfold strictwwid.
  destruct (Nat.eqb (String.length s) 23) eqn:Hlen; simpl.
  - apply Nat.eqb_eq in Hlen.
    do 23 (destruct s as [|? s]; [discriminate Hlen|]).
    destruct s; [|discriminate Hlen].
    rewrite has_bad_nibble_forallb.
    unfold neq. cbn -[Ascii.eqb spec_hex_lower].
    match goal with
    | |- context [negb (spec_hex_lower ?c && ?r)] =>
        destruct (spec_hex_lower c && r)
    end;
      repeat match goal with
             | |- context [Ascii.eqb ?c ":"] => destruct (Ascii.eqb c ":")
             end; simpl; intuition congruence.
  - apply Nat.eqb_neq in Hlen. intuition congruence.
Qed.

Lemma forallb_filter_same {A : Type} (f : A -> bool) (l : list A) :
  forallb f (filter f l) = true.
Proof.
  induction l as [|x l IH]; simpl; [reflexivity|].
  destruct (f x) eqn:E; simpl; [now rewrite E|exact IH].
Qed.

Lemma loosewwid_shape_of_result (raw : string) (out : list diagnostic)
  (x : string) :
  loosewwid raw = (out, Some x) ->
  spec_strict_shape spec_hex_lower x = true.
Proof.
  unfold loosewwid. rewrite hex_scan_spec. simpl.
  rewrite length_string_of_list_ascii.
  destruct (Nat.eqb (List.length (spec_hex_digits raw)) 16) eqn:E; simpl;
    [|discriminate].
  apply Nat.eqb_eq in E. intros H. injection H as _ <-.
  rewrite (brocadefmt_render _ E).
  apply spec_render_shape; [exact E|].
  apply forallb_filter_same.
Qed.

(** X2. Whatever [loosewwid] returns has 23 characters, colons exactly at
    the seven separator positions and one of 0-9, a-f everywhere else. *)
Theorem loosewwid_result_shape (raw : string) (out : list diagnostic)
  (x : string) :
  loosewwid raw = (out, Some x) ->
  spec_strict_shape spec_hex_lower x = true.
Proof. apply loosewwid_shape_of_result. Qed.

Lemma hex_scan_hex (c : ascii) (rest hexstring : string) :
  spec_hex_lower c = true ->
  hex_scan (String c rest) hexstring =
  hex_scan rest (hexstring ++ String c EmptyString).
Proof.
  intros H. simpl.
  replace (Py.lower c) with c by (revert H; each_char c; easy).
  now rewrite is_hex_spec, H.
Qed.

Lemma hex_scan_colon (rest hexstring : string) :
  hex_scan (String ":" rest) hexstring = hex_scan rest hexstring.
Proof. reflexivity. Qed.

Lemma loosewwid_result_shape_witness :
  spec_strict_shape spec_hex_lower "10:00:00:90:fa:6b:3c:d2" = true.
Proof.
  apply (loosewwid_result_shape "1000-0090 FA6B.3CD2" []).
  reflexivity.
Defined.

Lemma loosewwid_fixes_shape (s : string) :
  spec_strict_shape spec_hex_lower s = true -> loosewwid s = ([], Some s).
Proof.
  unfold spec_strict_shape. intros H.
  apply andb_true_iff in H. destruct H as [Hlen H].
  apply Nat.eqb_eq in Hlen.
  do 23 (destruct s as [|? s]; [discriminate Hlen|]).
  destruct s; [|discriminate Hlen].
  cbn -[spec_hex_lower Ascii.eqb] in H.
  repeat (apply andb_true_iff in H; destruct H as [?Hc H]).
  repeat match goal with
         | E : Ascii.eqb _ ":" = true |- _ => apply Ascii.eqb_eq in E; subst
         end.
  unfold loosewwid.
  repeat first [rewrite hex_scan_colon | rewrite hex_scan_hex by assumption].
  reflexivity.
Qed.

(** X3. A string of 23 characters with colons at the seven separator
    positions and one of 0-9, a-f everywhere else is returned unchanged by
    [loosewwid], with nothing printed. *)
Theorem loosewwid_canonical_fixed (s : string) :
  spec_strict_shape spec_hex_lower s = true -> loosewwid s = ([], Some s).
Proof. apply loosewwid_fixes_shape. Qed.

Lemma loosewwid_canonical_fixed_witness :
  loosewwid "50:06:0e:80:05:aa:bb:01" = ([], Some "50:06:0e:80:05:aa:bb:01").
Proof. apply loosewwid_canonical_fixed. reflexivity. Defined.

(** X4. Whatever [loosewwid] returns is returned again, unchanged and with
    nothing printed, by [loosewwid] and by [strictwwid]. *)
Theorem loosewwid_idempotent (raw : string) (out : list diagnostic)
  (x : string) :
  loosewwid raw = (out, Some x) ->
  loosewwid x = ([], Some x) /\ strictwwid x = ([], Some x).
Proof.
  intros H. apply loosewwid_shape_of_result in H.
  split; [now apply loosewwid_fixes_shape | now apply strictwwid_accepts].
Qed.

Lemma loosewwid_idempotent_witness :
  loosewwid "10:00:00:90:fa:6b:3c:d2" = ([], Some "10:00:00:90:fa:6b:3c:d2") /\
  strictwwid "10:00:00:90:fa:6b:3c:d2" = ([], Some "10:00:00:90:fa:6b:3c:d2").
Proof.
  apply (loosewwid_idempotent "1000-0090 FA6B.3CD2" []).
  reflexivity.
Defined.

(* ================================================================= *)
(** ** Alias names *)

(** X5. The fabric is read off the alias name: two rows whose fabric
    fields have the same length (one letter each, for checked rows) and
    differ get different alias names. *)
Theorem alias_format_fabric_visible (r r' : devrow) :
  String.length (fabric r) = String.length (fabric r') ->
  alias_format r = alias_format r' -> fabric r = fabric r'.
Proof.
  intros Hlen E.
  destruct (alias_format_tail r) as [s Hs].
  destruct (alias_format_tail r') as [s' Hs'].
  rewrite Hs, Hs' in E.
  apply append_tail_eq in E.
  - now injection E.
  - simpl. now rewrite Hlen.
Qed.

Lemma alias_format_fabric_visible_witness :
  fabric Sample.twin_a = fabric Sample.twin_b.
Proof.
  apply (alias_format_fabric_visible Sample.twin_a Sample.twin_b);
    reflexivity.
Defined.

(** X6. Alias names do not keep the three names apart: a node name that
    ends in an underscore and an interface name, with the interface column
    left empty, gives the alias of the row that has the two in separate
    columns. *)
Theorem alias_format_collision (n i s f t t' w w' : string) :
  i <> EmptyString ->
  alias_format (Devrow (n ++ "_" ++ i) EmptyString s f t w) =
  alias_format (Devrow n i s f t' w').
Proof.
  intros Hi. unfold alias_format, neq. simpl.
  apply String.eqb_neq in Hi. rewrite Hi. simpl.
  now destruct (String.eqb s EmptyString).
Qed.

Lemma alias_format_collision_witness :
  alias_format (Devrow "esx1_hba0" EmptyString EmptyString "A" "I"
                       "10:00:00:90:fa:00:00:01") =
  alias_format (Devrow "esx1" "hba0" EmptyString "A" "I"
                       "10:00:00:90:fa:00:00:02").
Proof.
  apply (alias_format_collision "esx1" "hba0"). discriminate.
Defined.

(* ================================================================= *)
(** ** What the validation passes print *)

(** A row either passes and is counted, or fails and has one diagnostic
    printed, the same whatever was printed before. *)
Lemma check_row_cases (strict : string) (rec : devrow) :
  (row_passes strict rec = true /\
   forall v, check_row strict rec v = incr_wwidct v) \/
  (row_passes strict rec = false /\
   exists d, forall v,
     check_row strict rec v = set_errors_found (print [d] v)).
Proof.
  unfold row_passes, wwid_accepted, check_row, check_initgt_fabric, neq.
  destruct (String.eqb strict "S").
  - destruct (strictwwid_prints (wwpn rec)) as [[d E] | E]; rewrite E; simpl.
    + right. eauto.
    + destruct (String.eqb (initgt rec) "I"), (String.eqb (initgt rec) "T"),
        (String.eqb (fabric rec) "A"), (String.eqb (fabric rec) "B");
        simpl; try (left; split; [reflexivity|]; intros v;
                    now rewrite print_nothing);
        right; (split; [reflexivity|]); eexists; intros v;
        now rewrite print_nothing.
  - destruct (loosewwid_prints (wwpn rec)) as [[d E] | [w E]]; rewrite E; simpl.
    + right. eauto.
    + destruct (String.eqb (initgt rec) "I"), (String.eqb (initgt rec) "T"),
        (String.eqb (fabric rec) "A"), (String.eqb (fabric rec) "B");
        simpl; try (left; split; [reflexivity|]; intros v;
                    now rewrite print_nothing);
        right; (split; [reflexivity|]); eexists; intros v;
        now rewrite print_nothing.
Qed.

Lemma row_reports_length (strict : string) (rec : devrow) :
  List.length (row_reports strict rec) =
  if row_passes strict rec then 0 else 1.
Proof.
  unfold row_reports.
  destruct (check_row_cases strict rec) as [[-> E] | [-> [d E]]];
    now rewrite E.
Qed.

Lemma check_row_printed (strict : string) (rec : devrow) (v : vars) :
  printed (check_row strict rec v) =
  (printed v ++ row_reports strict rec)%list.
Proof.
  unfold row_reports.
  destruct (check_row_cases strict rec) as [[_ E] | [_ [d E]]];
    rewrite !E; simpl; [now rewrite app_nil_r | reflexivity].
Qed.

Lemma check_row_wwidct (strict : string) (rec : devrow) (v : vars) :
  wwidct (check_row strict rec v) =
  wwidct v + if row_passes strict rec then 1 else 0.
Proof.
  destruct (check_row_cases strict rec) as [[-> E] | [-> [d E]]];
    rewrite E; simpl; lia.
Qed.

Lemma check_rows_printed (strict : string) (all_fab : list devrow) (v : vars) :
  printed (check_rows strict all_fab v) =
  (printed v ++ flat_map (row_reports strict) all_fab)%list.
Proof.
  revert v. unfold check_rows.
  induction all_fab as [|rec rest IH]; intros v; simpl.
  - now rewrite app_nil_r.
  - now rewrite IH, check_row_printed, <- app_assoc.
Qed.

Lemma check_rows_wwidct (strict : string) (all_fab : list devrow) (v : vars) :
  wwidct (check_rows strict all_fab v) =
  wwidct v + List.length (filter (row_passes strict) all_fab).
Proof.
  revert v. unfold check_rows.
  induction all_fab as [|rec rest IH]; intros v; simpl.
  - lia.
  - rewrite IH, check_row_wwidct.
    destruct (row_passes strict rec); simpl; lia.
Qed.

Lemma dup_wwpn_loop_printed (all_fab : list devrow) (last : string)
  (v : vars) :
  printed (dup_wwpn_loop all_fab last v) =
  (printed v ++ dup_wwpn_reports all_fab last)%list /\
  wwidct (dup_wwpn_loop all_fab last v) = wwidct v.
Proof.
  revert last v.
  induction all_fab as [|devrow rest IH]; intros last v; simpl.
  - now rewrite app_nil_r.
  - destruct (neq (wwpn devrow) last).
    + apply IH.
    + destruct (IH last (set_errors_found
                           (print [DuplicateWwpn (wwpn devrow)] v)))
        as [E1 E2].
      rewrite E1, E2. simpl. now rewrite <- app_assoc.
Qed.

Lemma dup_name_loop_printed (all_fab : list devrow) (n i s : string)
  (v : vars) :
  printed (dup_name_loop all_fab n i s v) =
  (printed v ++ dup_name_reports all_fab n i s)%list /\
  wwidct (dup_name_loop all_fab n i s v) = wwidct v.
Proof.
  revert n i s v.
  induction all_fab as [|devrow rest IH]; intros n i s v; simpl.
  - now rewrite app_nil_r.
  - match goal with
    | |- context [dup_name_loop rest _ _ _ ?v'] =>
        destruct (IH (node devrow) (primaryif devrow) (subif devrow) v')
          as [E1 E2]
    end.
    rewrite E1, E2.
    destruct (_ && _); simpl; [now rewrite <- app_assoc | easy].
Qed.

Lemma cable_loop_printed (all_fab : list devrow) (cmp : string)
  (last : option devrow) (v : vars) :
  printed (cable_loop all_fab cmp last v) =
  (printed v ++ cable_reports all_fab cmp last)%list /\
  wwidct (cable_loop all_fab cmp last v) = wwidct v.
Proof.
  revert cmp last v.
  induction all_fab as [|devrow rest IH]; intros cmp last v; simpl.
  - now rewrite app_nil_r.
  - match goal with
    | |- context [cable_loop rest _ _ ?v'] =>
        destruct (IH (fabric devrow) (Some devrow) v') as [E1 E2]
    end.
    rewrite E1, E2.
    destruct (String.eqb _ _); simpl; [now rewrite <- app_assoc | easy].
Qed.

(** The diagnostics and the count after the four passes. *)
Lemma validate_printed (strict cabchk : string) (all_fab : list devrow) :
  printed (snd (validate strict cabchk all_fab)) =
  (flat_map (row_reports strict) all_fab ++
   dup_wwpn_reports (Py.sort sort_WWPN all_fab) EmptyString ++
   dup_name_reports (Py.sort sort_cabkeys (Py.sort sort_WWPN all_fab))
     " " " " " " ++
   if String.eqb cabchk "Y"
   then cable_reports (Py.sort sort_cabkeys (Py.sort sort_WWPN all_fab))
          " " None
   else [])%list /\
  wwidct (snd (validate strict cabchk all_fab)) =
  List.length (filter (row_passes strict) all_fab).
Proof.
  unfold validate, cable_check. cbn [snd].
  rewrite dup_name_loop_dupname_error, dup_wwpn_loop_dupname_error,
    check_rows_dupname_error. cbn [dupname_error vars0 negb].
  rewrite andb_true_r.
  set (L1 := Py.sort sort_WWPN all_fab).
  set (L2 := Py.sort sort_cabkeys L1).
  destruct (dup_name_loop_printed L2 " " " " " "
              (dup_wwpn_loop L1 EmptyString
                 (check_rows strict all_fab vars0))) as [N1 N2].
  destruct (dup_wwpn_loop_printed L1 EmptyString
              (check_rows strict all_fab vars0)) as [W1 W2].
  destruct (String.eqb cabchk "Y").
  - match goal with
    | |- context [cable_loop L2 " " None ?v'] =>
        destruct (cable_loop_printed L2 " " None v') as [C1 C2]
    end.
    rewrite C1, C2, N1, N2, W1, W2, check_rows_printed, check_rows_wwidct.
    simpl. now rewrite <- !app_assoc.
  - rewrite N1, N2, W1, W2, check_rows_printed, check_rows_wwidct.
    simpl. now rewrite app_nil_r, <- !app_assoc.
Qed.

Lemma main_fields (strict cabchk today : string) (all_fab : list devrow) :
  diagnostics (main strict cabchk today all_fab) =
  printed (snd (validate strict cabchk all_fab)) /\
  records_processed (main strict cabchk today all_fab) =
  wwidct (snd (validate strict cabchk all_fab)) /\
  exit_status (main strict cabchk today all_fab) =
  match printed (snd (validate strict cabchk all_fab)) with
  | [] => 0
  | _ :: _ => 1
  end.
Proof.
  pose proof (validate_agrees strict cabchk all_fab) as H.
  unfold main.
  destruct (validate strict cabchk all_fab) as [sorted v]. simpl in *.
  unfold flag_agrees, reported in H.
  destruct (errors_found v); simpl; destruct (printed v);
    try discriminate H; repeat split; reflexivity.
Qed.

Lemma diagnostics_in_pass_order_lemma (strict cabchk today : string)
  (all_fab : list devrow) :
  diagnostics (main strict cabchk today all_fab) =
  (flat_map (row_reports strict) all_fab ++
   dup_wwpn_reports (Py.sort sort_WWPN all_fab) EmptyString ++
   dup_name_reports (Py.sort sort_cabkeys (Py.sort sort_WWPN all_fab))
     " " " " " " ++
   if String.eqb cabchk "Y"
   then cable_reports (Py.sort sort_cabkeys (Py.sort sort_WWPN all_fab))
          " " None
   else [])%list.
Proof.
  destruct (main_fields strict cabchk today all_fab) as [-> _].
  apply validate_printed.
Qed.

(** X7. The diagnostics of a run are, in this order: what the per-row loop
    prints for each row, in the order of the rows; what the duplicate-wwpn
    loop prints; what the duplicate-name loop prints; and, when the cable
    check is requested, what the cable loop prints. Every pass runs over
    all rows whatever was reported before. *)
Theorem diagnostics_in_pass_order (strict cabchk today : string)
  (all_fab : list devrow) :
  diagnostics (main strict cabchk today all_fab) =
  (flat_map (row_reports strict) all_fab ++
   dup_wwpn_reports (Py.sort sort_WWPN all_fab) EmptyString ++
   dup_name_reports (Py.sort sort_cabkeys (Py.sort sort_WWPN all_fab))
     " " " " " " ++
   if String.eqb cabchk "Y"
   then cable_reports (Py.sort sort_cabkeys (Py.sort sort_WWPN all_fab))
          " " None
   else [])%list.
Proof. apply diagnostics_in_pass_order_lemma. Qed.

(** X8. Every row is either counted as processed or has exactly one
    diagnostic printed by the per-row loop (that of the first test it
    fails): the count of processed records is the number of rows that pass
    the three tests, and together with the per-row diagnostics it makes up
    the number of rows. *)
Theorem records_processed_accounting (strict cabchk today : string)
  (all_fab : list devrow) :
  records_processed (main strict cabchk today all_fab) =
  List.length (filter (row_passes strict) all_fab) /\
  records_processed (main strict cabchk today all_fab) +
  List.length (flat_map (row_reports strict) all_fab) =
  List.length all_fab.
Proof.
  destruct (main_fields strict cabchk today all_fab) as (_ & -> & _).
  destruct (validate_printed strict cabchk all_fab) as [_ ->].
  split; [reflexivity|].
  induction all_fab as [|rec rest IH]; simpl; [reflexivity|].
  rewrite length_app, row_reports_length.
  destruct (row_passes strict rec); simpl; lia.
Qed.

(* ================================================================= *)
(** ** What a run without diagnostics guarantees, and what the duplicate
       and cable reports mean *)

Lemma main_exit_0 (strict cabchk today : string) (all_fab : list devrow) :
  exit_status (main strict cabchk today all_fab) = 0 ->
  diagnostics (main strict cabchk today all_fab) = [].
Proof.
  destruct (main_fields strict cabchk today all_fab) as (-> & _ & ->).
  now destruct (printed _).
Qed.

Lemma flat_map_nil {A B : Type} (f : A -> list B) (l : list A) :
  flat_map f l = [] -> Forall (fun x => f x = []) l.
Proof.
  induction l as [|x l IH]; simpl; intros H; constructor.
  - now apply app_eq_nil in H.
  - apply IH. now apply app_eq_nil in H.
Qed.

Lemma row_passes_spec (strict : string) (rec : devrow) :
  row_passes strict rec = true ->
  wwid_accepted strict (wwpn rec) = true /\
  (initgt rec = "I" \/ initgt rec = "T") /\
  (fabric rec = "A" \/ fabric rec = "B").
Proof.
  unfold row_passes. intros H.
  apply andb_true_iff in H. destruct H as [H HF].
  apply andb_true_iff in H. destruct H as [HW HI].
  apply orb_true_iff in HI, HF.
  rewrite !String.eqb_eq in HI, HF. auto.
Qed.

(** X9. When a run ends with exit status 0, every row that was read has
    an identifier accepted by the selected check, role I or T and fabric A
    or B, and the count of processed records is the number of rows. *)
Theorem exit_0_rows_checked (strict cabchk today : string)
  (all_fab : list devrow) :
  exit_status (main strict cabchk today all_fab) = 0 ->
  Forall (fun rec => wwid_accepted strict (wwpn rec) = true /\
                     (initgt rec = "I" \/ initgt rec = "T") /\
                     (fabric rec = "A" \/ fabric rec = "B")) all_fab /\
  records_processed (main strict cabchk today all_fab) =
  List.length all_fab.
Proof.
  intros H. apply main_exit_0 in H.
  destruct (main_fields strict cabchk today all_fab) as (D & -> & _).
  rewrite D in H.
  destruct (validate_printed strict cabchk all_fab) as [P ->].
  rewrite P in H. apply app_eq_nil in H. destruct H as [H _].
  apply flat_map_nil in H.
  assert (HP : Forall (fun rec => row_passes strict rec = true) all_fab).
  { eapply Forall_impl; [|exact H]. intros rec E. simpl in E.
    apply (f_equal (@List.length _)) in E.
    rewrite row_reports_length in E.
    now destruct (row_passes strict rec). }
  split.
  - eapply Forall_impl; [|exact HP]. intros rec. apply row_passes_spec.
  - clear -HP. induction HP as [|rec rest Hr _ IH]; simpl; [reflexivity|].
    rewrite Hr. simpl. now rewrite IH.
Qed.

Lemma exit_0_rows_checked_witness :
  Forall (fun rec => wwid_accepted "S" (wwpn rec) = true /\
                     (initgt rec = "I" \/ initgt rec = "T") /\
                     (fabric rec = "A" \/ fabric rec = "B"))
         Sample.dual_fabric /\
  records_processed (main "S" "Y" "2020-06-27" Sample.dual_fabric) = 4.
Proof.
  apply (exit_0_rows_checked "S" "Y" "2020-06-27" Sample.dual_fabric).
  reflexivity.
Defined.

(** *** The order of the sort keys *)

Lemma compare_not_gt_trans (a b c : string) :
  String.compare a b <> Gt -> String.compare b c <> Gt ->
  String.compare a c <> Gt.
Proof.
  revert b c.
  induction a as [|x a IH]; intros [|y b] [|z c]; simpl; try congruence.
  unfold Ascii.compare.
  destruct (N.compare_spec (N_of_ascii x) (N_of_ascii y)) as [E1|E1|E1],
           (N.compare_spec (N_of_ascii y) (N_of_ascii z)) as [E2|E2|E2],
           (N.compare_spec (N_of_ascii x) (N_of_ascii z)) as [E3|E3|E3];
    try congruence; try lia.
  apply IH.
Qed.

Lemma ltb_false_compare (s t : string) :
  String.ltb s t = false <-> String.compare t s <> Gt.
Proof.
  unfold String.ltb. rewrite (String.compare_antisym t s).
  destruct (String.compare s t); simpl; intuition congruence.
Qed.

Lemma key_le_trans {A : Type} (key : A -> string) (a b c : A) :
  key_le key a b -> key_le key b c -> key_le key a c.
Proof.
  unfold key_le. rewrite !ltb_false_compare.
  apply compare_not_gt_trans.
Qed.

Lemma key_le_antisym {A : Type} (key : A -> string) (a b : A) :
  key_le key a b -> key_le key b a -> key a = key b.
Proof.
  unfold key_le. rewrite !ltb_false_compare. intros H1 H2.
  apply String.compare_eq_iff.
  rewrite (String.compare_antisym (key b) (key a)) in H2.
  destruct (String.compare (key a) (key b)); simpl in *; congruence.
Qed.

Lemma sort_strongly_sorted {A : Type} (key : A -> string) (l : list A) :
  StronglySorted (key_le key) (Py.sort key l).
Proof.
  apply Sorted_StronglySorted.
  - intros a b c. apply key_le_trans.
  - apply sort_sorted.
Qed.

(** *** Duplicate port identifiers *)

Lemma dup_wwpn_reports_cons (a : devrow) (l : list devrow) (last : string) :
  dup_wwpn_reports (a :: l) last =
  ((if String.eqb (wwpn a) last then [DuplicateWwpn (wwpn a)] else []) ++
   dup_wwpn_reports l (wwpn a))%list.
Proof.
  simpl. unfold neq.
  destruct (String.eqb (wwpn a) last) eqn:E; simpl; [|reflexivity].
  apply String.eqb_eq in E. now rewrite E.
Qed.

Lemma count_wwpn_cons (w : string) (a : devrow) (l : list devrow) :
  count_wwpn w (a :: l) =
  (if String.eqb (wwpn a) w then 1 else 0) + count_wwpn w l.
Proof. unfold count_wwpn. simpl. now destruct (String.eqb (wwpn a) w). Qed.

Lemma count_wwpn_perm (w : string) (l l' : list devrow) :
  Permutation l l' -> count_wwpn w l = count_wwpn w l'.
Proof.
  intros H. unfold count_wwpn.
  apply Permutation_length. now apply filter_perm.
Qed.

Lemma count_wwpn_In (w : string) (l : list devrow) :
  1 <= count_wwpn w l -> exists r, In r l /\ wwpn r = w.
Proof.
  induction l as [|a l IH]; [simpl; unfold count_wwpn; simpl; lia|].
  rewrite count_wwpn_cons.
  destruct (String.eqb (wwpn a) w) eqn:E.
  - intros _. exists a. split; [now left | now apply String.eqb_eq].
  - intros H. destruct (IH H) as (r & Hr & Hw).
    exists r. split; [now right | easy].
Qed.

(** In a list sorted on the port identifier, a second row with an
    identifier is reported. *)
Lemma dup_wwpn_reports_complete (w : string) (l : list devrow)
  (last : string) :
  StronglySorted (key_le sort_WWPN) l ->
  2 <= count_wwpn w l ->
  In (DuplicateWwpn w) (dup_wwpn_reports l last).
Proof.
  intros HS. revert last.
  induction HS as [|a l HS IH Ha]; intros last H.
  - unfold count_wwpn in H. simpl in H. lia.
  - rewrite dup_wwpn_reports_cons. apply in_or_app. right.
    rewrite count_wwpn_cons in H.
    destruct (String.eqb (wwpn a) w) eqn:E.
    + apply String.eqb_eq in E.
      assert (H1 : 1 <= count_wwpn w l) by lia.
      destruct l as [|b l]; [unfold count_wwpn in H1; simpl in H1; lia|].
      assert (Eb : wwpn b = w).
      { destruct (count_wwpn_In _ _ H1) as (r & Hr & Hw).
        pose proof (Forall_inv Ha) as Hab.
        destruct Hr as [Hr|Hr]; [now rewrite Hr|].
        apply StronglySorted_inv in HS. destruct HS as [_ Hb].
        rewrite Forall_forall in Hb. specialize (Hb r Hr).
        rewrite <- E.
        apply (key_le_antisym sort_WWPN b a); [|exact Hab].
        unfold key_le, sort_WWPN in *. now rewrite E, <- Hw. }
      rewrite dup_wwpn_reports_cons. apply in_or_app. left.
      rewrite Eb, E, String.eqb_refl. now left.
    + apply IH. lia.
Qed.

(** A report names an identifier that two rows hold, or the initial value
    of [last_wwpn] held by a row. *)
Lemma dup_wwpn_reports_sound (w : string) (l : list devrow) (last : string) :
  In (DuplicateWwpn w) (dup_wwpn_reports l last) ->
  (last = w /\ 1 <= count_wwpn w l) \/ 2 <= count_wwpn w l.
Proof.
  revert last. induction l as [|a l IH]; intros last H; [destruct H|].
  rewrite dup_wwpn_reports_cons in H. rewrite count_wwpn_cons.
  apply in_app_or in H. destruct H as [H|H].
  - destruct (String.eqb (wwpn a) last) eqn:E; [|destruct H].
    destruct H as [H|[]]. injection H as H.
    apply String.eqb_eq in E. left. subst.
    rewrite String.eqb_refl. split; [reflexivity | lia].
  - right. destruct (IH _ H) as [[E H1] | H2].
    + rewrite E, String.eqb_refl. lia.
    + lia.
Qed.

(** *** Which pass prints what *)

Lemma row_reports_pass (strict : string) (rec : devrow) :
  Forall (fun d => pass_of d = 1) (row_reports strict rec).
Proof.
  unfold row_reports, check_row, check_initgt_fabric, strictwwid, loosewwid.
  repeat match goal with
         | |- context [if ?b then _ else _] => destruct b
         end; simpl; repeat constructor.
Qed.

Lemma rows_reports_pass (strict : string) (l : list devrow) :
  Forall (fun d => pass_of d = 1) (flat_map (row_reports strict) l).
Proof.
  induction l as [|rec l IH]; simpl; [constructor|].
  apply Forall_app. split; [apply row_reports_pass | exact IH].
Qed.

Lemma dup_wwpn_reports_pass (l : list devrow) (last : string) :
  Forall (fun d => pass_of d = 2) (dup_wwpn_reports l last).
Proof.
  revert last. induction l as [|a l IH]; intros last; simpl; [constructor|].
  destruct (neq _ _); [apply IH|]. constructor; [reflexivity | apply IH].
Qed.

Lemma dup_name_reports_pass (l : list devrow) (n i s : string) :
  Forall (fun d => pass_of d = 3) (dup_name_reports l n i s).
Proof.
  revert n i s. induction l as [|a l IH]; intros n i s; simpl; [constructor|].
  destruct (_ && _); simpl; [constructor; [reflexivity|]|]; apply IH.
Qed.

Lemma cable_reports_pass (l : list devrow) (cmp : string)
  (last : option devrow) :
  Forall (fun d => pass_of d = 4) (cable_reports l cmp last).
Proof.
  revert cmp last.
  induction l as [|a l IH]; intros cmp last; simpl; [constructor|].
  destruct (String.eqb _ _); simpl; [constructor; [reflexivity|]|]; apply IH.
Qed.

Lemma In_pass (d : diagnostic) (k j : nat) (l : list diagnostic) :
  Forall (fun d => pass_of d = k) l -> pass_of d = j -> k <> j -> ~ In d l.
Proof.
  intros H Hd Hk Hin. rewrite Forall_forall in H.
  apply H in Hin. congruence.
Qed.

(** The diagnostic is found in the part of its pass. *)
Lemma diagnostics_by_pass (strict cabchk today : string)
  (all_fab : list devrow) (d : diagnostic) :
  In d (diagnostics (main strict cabchk today all_fab)) ->
  (pass_of d = 1 /\ In d (flat_map (row_reports strict) all_fab)) \/
  (pass_of d = 2 /\
   In d (dup_wwpn_reports (Py.sort sort_WWPN all_fab) EmptyString)) \/
  (pass_of d = 3 /\
   In d (dup_name_reports
           (Py.sort sort_cabkeys (Py.sort sort_WWPN all_fab)) " " " " " ")) \/
  (pass_of d = 4 /\ cabchk = "Y" /\
   In d (cable_reports
           (Py.sort sort_cabkeys (Py.sort sort_WWPN all_fab)) " " None)).
Proof.
  rewrite diagnostics_in_pass_order_lemma. intros H.
  apply in_app_or in H. destruct H as [H|H].
  { left. split; [|exact H].
    pose proof (rows_reports_pass strict all_fab) as F.
    rewrite Forall_forall in F. now apply F. }
  apply in_app_or in H. destruct H as [H|H].
  { right. left. split; [|exact H].
    pose proof (dup_wwpn_reports_pass (Py.sort sort_WWPN all_fab) EmptyString)
      as F.
    rewrite Forall_forall in F. now apply F. }
  apply in_app_or in H. destruct H as [H|H].
  { right. right. left. split; [|exact H].
    match type of H with In _ ?l =>
      assert (F : Forall (fun d => pass_of d = 3) l)
        by apply dup_name_reports_pass
    end.
    rewrite Forall_forall in F. now apply F. }
  right. right. right.
  destruct (String.eqb cabchk "Y") eqn:E; [|destruct H].
  apply String.eqb_eq in E. split; [|split; [exact E | exact H]].
  match type of H with In _ ?l =>
    assert (F : Forall (fun d => pass_of d = 4) l)
      by apply cable_reports_pass
  end.
  rewrite Forall_forall in F. now apply F.
Qed.

(** X10. Two rows with the same port identifier, as read, are always
    reported: the duplicate-wwpn diagnostic for that identifier is among
    the diagnostics of the run, whatever the options and the other rows. *)
Theorem duplicate_wwpn_reported (strict cabchk today w : string)
  (all_fab : list devrow) :
  2 <= count_wwpn w all_fab ->
  In (DuplicateWwpn w) (diagnostics (main strict cabchk today all_fab)).
Proof.
  intros H. rewrite diagnostics_in_pass_order_lemma.
  apply in_or_app. right. apply in_or_app. left.
  apply dup_wwpn_reports_complete.
  - apply sort_strongly_sorted.
  - now rewrite (count_wwpn_perm w _ all_fab) by apply sort_perm.
Qed.

Lemma duplicate_wwpn_reported_witness :
  In (DuplicateWwpn "10:00:00:90:fa:00:00:01")
     (diagnostics (main "S" "N" "2020-06-27"
                        [Sample.bad_role; Sample.good_row])).
Proof.
  apply duplicate_wwpn_reported. unfold count_wwpn. simpl. lia.
Defined.

Lemma In_count_wwpn (w : string) (l : list devrow) :
  In w (map wwpn l) -> 1 <= count_wwpn w l.
Proof.
  induction l as [|a l IH]; simpl; [easy|].
  rewrite count_wwpn_cons. intros [H|H].
  - rewrite H, String.eqb_refl. lia.
  - apply IH in H. lia.
Qed.

Lemma count_wwpn_NoDup (l : list devrow) :
  (forall w, count_wwpn w l <= 1) -> NoDup (map wwpn l).
Proof.
  induction l as [|a l IH]; intros H; simpl; constructor.
  - intros Hin. apply In_count_wwpn in Hin.
    specialize (H (wwpn a)). rewrite count_wwpn_cons, String.eqb_refl in H.
    lia.
  - apply IH. intros w. specialize (H w).
    rewrite count_wwpn_cons in H. lia.
Qed.

(** X11. When a run ends with exit status 0, the port identifiers of the
    rows, as read, are pairwise different. *)
Theorem exit_0_wwpn_distinct (strict cabchk today : string)
  (all_fab : list devrow) :
  exit_status (main strict cabchk today all_fab) = 0 ->
  NoDup (map wwpn all_fab).
Proof.
  intros H. apply main_exit_0 in H.
  apply count_wwpn_NoDup. intros w.
  destruct (le_lt_dec (count_wwpn w all_fab) 1) as [Hle|Hgt]; [exact Hle|].
  exfalso.
  rewrite diagnostics_in_pass_order_lemma in H.
  apply app_eq_nil in H. destruct H as [_ H].
  apply app_eq_nil in H. destruct H as [H _].
  assert (D : In (DuplicateWwpn w)
                 (dup_wwpn_reports (Py.sort sort_WWPN all_fab) EmptyString)).
  { apply dup_wwpn_reports_complete; [apply sort_strongly_sorted|].
    now rewrite (count_wwpn_perm w _ all_fab) by apply sort_perm. }
  rewrite H in D. destruct D.
Qed.

Lemma exit_0_wwpn_distinct_witness : NoDup (map wwpn Sample.dual_fabric).
Proof.
  apply (exit_0_wwpn_distinct "S" "Y" "2020-06-27"). reflexivity.
Defined.

(** X12. A duplicate-wwpn diagnostic is printed only for an identifier
    that two rows hold, or for the empty identifier when a row holds it
    (the initial value of [last_wwpn]). *)
Theorem duplicate_wwpn_report_sound (strict cabchk today w : string)
  (all_fab : list devrow) :
  In (DuplicateWwpn w) (diagnostics (main strict cabchk today all_fab)) ->
  (w = EmptyString /\ 1 <= count_wwpn w all_fab) \/
  2 <= count_wwpn w all_fab.
Proof.
  intros H. apply diagnostics_by_pass in H.
  destruct H as [[H _] | [[_ H] | [[H _] | [H _]]]]; try discriminate H.
  apply dup_wwpn_reports_sound in H.
  rewrite (count_wwpn_perm w _ all_fab) in H by apply sort_perm.
  destruct H as [[E H] | H]; [left | right]; auto.
Qed.

Lemma duplicate_wwpn_report_sound_witness :
  ("10:00:00:90:fa:00:00:01" = EmptyString /\
   1 <= count_wwpn "10:00:00:90:fa:00:00:01"
          [Sample.bad_role; Sample.good_row]) \/
  2 <= count_wwpn "10:00:00:90:fa:00:00:01"
         [Sample.bad_role; Sample.good_row].
Proof.
  apply (duplicate_wwpn_report_sound "S" "N" "2020-06-27").
  simpl. right. left. reflexivity.
Defined.

Lemma ltb_empty (s : string) :
  String.ltb EmptyString s = false -> s = EmptyString.
Proof. destruct s; [reflexivity | discriminate]. Qed.

(** X29. A row with an empty port identifier is always reported as a
    duplicate, even when it is the only row: it is sorted first and equals
    the initial value of [last_wwpn]. *)
Theorem empty_wwpn_reported_duplicate (strict cabchk today : string)
  (all_fab : list devrow) :
  1 <= count_wwpn EmptyString all_fab ->
  In (DuplicateWwpn EmptyString)
     (diagnostics (main strict cabchk today all_fab)).
Proof.
  intros H. rewrite diagnostics_in_pass_order_lemma.
  apply in_or_app. right. apply in_or_app. left.
  rewrite (count_wwpn_perm _ _ _ (Permutation_sym (sort_perm sort_WWPN _)))
    in H.
  pose proof (sort_strongly_sorted sort_WWPN all_fab) as HS.
  destruct (Py.sort sort_WWPN all_fab) as [|h l];
    [unfold count_wwpn in H; simpl in H; lia|].
  destruct (count_wwpn_In _ _ H) as (r & Hr & Hw).
  assert (Eh : wwpn h = EmptyString).
  { destruct Hr as [<-|Hr]; [exact Hw|].
    apply StronglySorted_inv in HS. destruct HS as [_ Hh].
    rewrite Forall_forall in Hh. specialize (Hh r Hr).
    unfold key_le, sort_WWPN in Hh. rewrite Hw in Hh.
    now apply ltb_empty. }
  rewrite dup_wwpn_reports_cons, Eh. simpl. now left.
Qed.

Lemma empty_wwpn_reported_duplicate_witness :
  In (DuplicateWwpn EmptyString)
     (diagnostics
        (main "L" "N" "2020-06-27"
              [Devrow "host1" "hba1" EmptyString "A" "I" EmptyString])).
Proof.
  apply empty_wwpn_reported_duplicate. unfold count_wwpn. simpl. lia.
Defined.

(** *** Duplicate names *)

Lemma count_name_cons (n i s : string) (a : devrow) (l : list devrow) :
  count_name n i s (a :: l) =
  (if same_name n i s a then 1 else 0) + count_name n i s l.
Proof. unfold count_name. simpl. now destruct (same_name n i s a). Qed.

Lemma count_name_perm (n i s : string) (l l' : list devrow) :
  Permutation l l' -> count_name n i s l = count_name n i s l'.
Proof.
  intros H. unfold count_name.
  apply Permutation_length. now apply filter_perm.
Qed.

Lemma same_name_refl (a : devrow) :
  same_name (node a) (primaryif a) (subif a) a = true.
Proof. unfold same_name. now rewrite !String.eqb_refl. Qed.

Lemma dup_name_reports_sound (n i s : string) (l : list devrow)
  (pn pi ps : string) :
  In (DuplicateName n i s) (dup_name_reports l pn pi ps) ->
  (pn = n /\ pi = i /\ ps = s /\ 1 <= count_name n i s l) \/
  2 <= count_name n i s l.
Proof.
  revert pn pi ps.
  induction l as [|a l IH]; intros pn pi ps H; [destruct H|].
  simpl in H. rewrite count_name_cons.
  apply in_app_or in H. destruct H as [H|H].
  - destruct (_ && _) eqn:E; [|destruct H].
    destruct H as [H|[]]. injection H as <- <- <-.
    apply andb_true_iff in E. destruct E as [E E3].
    apply andb_true_iff in E. destruct E as [E1 E2].
    apply String.eqb_eq in E1, E2, E3. subst.
    left. rewrite same_name_refl. repeat split; lia.
  - right. destruct (IH _ _ _ H) as [(<- & <- & <- & H1) | H2].
    + rewrite same_name_refl. lia.
    + lia.
Qed.

(** X13. A duplicate-name diagnostic is never printed for three names that
    only one row has, with one exception: a row whose three names are each
    a single space, the initial values of the loop. *)
Theorem duplicate_name_report_sound (strict cabchk today n i s : string)
  (all_fab : list devrow) :
  In (DuplicateName n i s) (diagnostics (main strict cabchk today all_fab)) ->
  (n = " " /\ i = " " /\ s = " " /\ 1 <= count_name n i s all_fab) \/
  2 <= count_name n i s all_fab.
Proof.
  intros H. apply diagnostics_by_pass in H.
  destruct H as [[H _] | [[H _] | [[_ H] | [H _]]]]; try discriminate H.
  apply dup_name_reports_sound in H.
  rewrite (count_name_perm n i s _ all_fab) in H
    by (now rewrite !sort_perm).
  destruct H as [(<- & <- & <- & H) | H]; [left | right]; auto.
Qed.

Lemma duplicate_name_report_sound_witness :
  ("host1" = " " /\ "hba1" = " " /\ EmptyString = " " /\
   1 <= count_name "host1" "hba1" EmptyString
          [Sample.twin_a; Sample.twin_b]) \/
  2 <= count_name "host1" "hba1" EmptyString [Sample.twin_a; Sample.twin_b].
Proof.
  apply (duplicate_name_report_sound "S" "N" "2020-06-27").
  simpl. left. reflexivity.
Defined.

(** *** The cable check *)

Lemma cable_reports_iff (prev : option devrow) (r : devrow)
  (l : list devrow) (cmp : string) (last : option devrow) :
  In (CableMisconfiguration prev r) (cable_reports l cmp last) <->
  (prev = last /\ fabric r = cmp /\ exists rest, l = r :: rest) \/
  (exists p l1 l2,
     prev = Some p /\ l = (l1 ++ p :: r :: l2)%list /\ fabric p = fabric r).
Proof.
  revert cmp last.
  induction l as [|a l IH]; intros cmp last.
  - simpl. split; [intros []|].
    intros [(_ & _ & rest & H) | (p & l1 & l2 & _ & H & _)].
    + discriminate H.
    + destruct l1; discriminate H.
  - cbn [cable_reports]. rewrite in_app_iff, IH. split.
    + intros [H|[(-> & E & rest & ->) | (p & l1 & l2 & -> & -> & E)]].
      * destruct (String.eqb (fabric a) cmp) eqn:E; [|destruct H].
        destruct H as [H|[]]. injection H as <- <-.
        apply String.eqb_eq in E. left. eauto.
      * right. exists a, [], rest. auto.
      * right. exists p, (a :: l1), l2. auto.
    + intros [(-> & E & rest & H) | (p & l1 & l2 & -> & H & E)].
      * injection H as <- <-. left.
        apply String.eqb_eq in E. rewrite E. now left.
      * right. destruct l1 as [|x l1]; simpl in H; injection H as <- ->.
        -- left. eauto.
        -- right. exists p, l1, l2. auto.
Qed.

(** X14. A cable diagnostic is among the diagnostics of a run exactly when
    the cable check was requested and, in the list sorted on the names and
    the port identifier, either the row it names comes right after the row
    it names as the previous one and both have the same fabric field, or it
    names no previous row, the row is the first of that list and its fabric
    field is a single space. Both rows are rows of the input. *)
Theorem cable_report_sound (strict cabchk today : string)
  (all_fab : list devrow) (prev : option devrow) (r : devrow) :
  In (CableMisconfiguration prev r)
     (diagnostics (main strict cabchk today all_fab)) <->
  cabchk = "Y" /\ In r all_fab /\
  ((prev = None /\ fabric r = " " /\
    exists rest,
      Py.sort sort_cabkeys (Py.sort sort_WWPN all_fab) = r :: rest) \/
   exists p l1 l2,
     prev = Some p /\ In p all_fab /\
     Py.sort sort_cabkeys (Py.sort sort_WWPN all_fab) =
     (l1 ++ p :: r :: l2)%list /\
     fabric p = fabric r).
Proof.
  set (L := Py.sort sort_cabkeys (Py.sort sort_WWPN all_fab)).
  assert (P : forall x, In x L -> In x all_fab).
  { intros x. apply Permutation_in. subst L. now rewrite !sort_perm. }
  split.
  - intros H. apply diagnostics_by_pass in H.
    destruct H as [[H _] | [[H _] | [[H _] | (_ & Hc & H)]]];
      try discriminate H.
    fold L in H. apply cable_reports_iff in H.
    split; [exact Hc|].
    destruct H as [(-> & E & rest & HL) | (p & l1 & l2 & -> & HL & E)].
    + split; [apply P; rewrite HL; now left|]. left. eauto.
    + split; [apply P; rewrite HL; apply in_or_app; right; right; now left|].
      right. exists p, l1, l2. repeat split; auto.
      apply P. rewrite HL. apply in_or_app. right. now left.
  - intros (-> & _ & H). rewrite diagnostics_in_pass_order_lemma.
    apply in_or_app. right. apply in_or_app. right. apply in_or_app. right.
    cbn [String.eqb Ascii.eqb Bool.eqb]. fold L.
    apply cable_reports_iff.
    destruct H as [(-> & E & rest & HL) | (p & l1 & l2 & -> & _ & HL & E)].
    + left. eauto.
    + right. exists p, l1, l2. auto.
Qed.

Lemma cable_report_sound_witness :
  "Y" = "Y" /\ In Sample.twin_b [Sample.twin_a; Sample.twin_b] /\
  ((Some Sample.twin_a = None /\ fabric Sample.twin_b = " " /\
    exists rest,
      Py.sort sort_cabkeys
        (Py.sort sort_WWPN [Sample.twin_a; Sample.twin_b]) =
      Sample.twin_b :: rest) \/
   exists p l1 l2,
     Some Sample.twin_a = Some p /\
     In p [Sample.twin_a; Sample.twin_b] /\
     Py.sort sort_cabkeys
       (Py.sort sort_WWPN [Sample.twin_a; Sample.twin_b]) =
     (l1 ++ p :: Sample.twin_b :: l2)%list /\
     fabric p = fabric Sample.twin_b).
Proof.
  apply (proj1 (cable_report_sound "S" "Y" "2020-06-27"
                  [Sample.twin_a; Sample.twin_b]
                  (Some Sample.twin_a) Sample.twin_b)).
  simpl. right. left. reflexivity.
Defined.

Lemma count_fabric_cons (f : string) (a : devrow) (l : list devrow) :
  count_fabric f (a :: l) =
  (if String.eqb (fabric a) f then 1 else 0) + count_fabric f l.
Proof. unfold count_fabric. simpl. now destruct (String.eqb (fabric a) f). Qed.

(** Without a cable report the fabrics alternate, so the two counts differ
    by at most one; after an A row the next rows start with B, and after a B
    row with A. *)
Lemma cable_reports_nil_balanced (l : list devrow) (cmp : string)
  (last : option devrow) :
  cable_reports l cmp last = [] ->
  Forall (fun r => fabric r = "A" \/ fabric r = "B") l ->
  (cmp = "A" -> count_fabric "A" l <= count_fabric "B" l) /\
  (cmp = "B" -> count_fabric "B" l <= count_fabric "A" l) /\
  count_fabric "A" l <= count_fabric "B" l + 1 /\
  count_fabric "B" l <= count_fabric "A" l + 1.
Proof.
  revert cmp last.
  induction l as [|a l IH]; intros cmp last H HF.
  - unfold count_fabric. simpl. lia.
  - simpl in H. apply app_eq_nil in H. destruct H as [H1 H2].
    inversion HF as [|? ? Ha HF']; subst.
    destruct (IH _ _ H2 HF') as (IA & IB & I1 & I2).
    rewrite !count_fabric_cons.
    destruct (String.eqb (fabric a) cmp) eqn:E; [discriminate H1|].
    apply String.eqb_neq in E.
    destruct Ha as [Ha|Ha]; rewrite Ha in *; simpl.
    + specialize (IA eq_refl). repeat split; try lia; congruence.
    + specialize (IB eq_refl). repeat split; try lia; congruence.
Qed.

(** X15. When a run with the cable check requested ends with exit status
    0, the numbers of rows on fabric A and on fabric B differ by at most
    one. *)
Theorem exit_0_cable_balanced (strict today : string)
  (all_fab : list devrow) :
  exit_status (main strict "Y" today all_fab) = 0 ->
  count_fabric "A" all_fab <= count_fabric "B" all_fab + 1 /\
  count_fabric "B" all_fab <= count_fabric "A" all_fab + 1.
Proof.
  intros H. apply main_exit_0 in H.
  rewrite diagnostics_in_pass_order_lemma in H. simpl in H.
  apply app_eq_nil in H. destruct H as [HR H].
  apply app_eq_nil in H. destruct H as [_ H].
  apply app_eq_nil in H. destruct H as [_ H].
  set (L := Py.sort sort_cabkeys (Py.sort sort_WWPN all_fab)) in *.
  assert (P : Permutation L all_fab) by (subst L; now rewrite !sort_perm).
  assert (HF : Forall (fun r => fabric r = "A" \/ fabric r = "B") L).
  { rewrite Forall_forall. intros r Hr.
    apply (Permutation_in _ P) in Hr.
    apply flat_map_nil in HR. rewrite Forall_forall in HR.
    specialize (HR r Hr). simpl in HR.
    apply (f_equal (@List.length _)) in HR.
    rewrite row_reports_length in HR.
    destruct (row_passes strict r) eqn:E; [|discriminate HR].
    now apply row_passes_spec in E. }
  destruct (cable_reports_nil_balanced L " " None H HF) as (_ & _ & H1 & H2).
  unfold count_fabric in *.
  rewrite <- !(Permutation_length (filter_perm _ _ _ P)). lia.
Qed.

Lemma exit_0_cable_balanced_witness :
  count_fabric "A" Sample.dual_fabric <=
  count_fabric "B" Sample.dual_fabric + 1 /\
  count_fabric "B" Sample.dual_fabric <=
  count_fabric "A" Sample.dual_fabric + 1.
Proof.
  apply (exit_0_cable_balanced "S" "2020-06-27"). reflexivity.
Defined.

(* ================================================================= *)
(** ** The alias and zone files *)

Lemma filter_partition_perm {A : Type} (f : A -> bool) (l : list A) :
  Permutation (filter f l ++ filter (fun x => negb (f x)) l) l.
Proof.
  induction l as [|x l IH]; simpl; [reflexivity|].
  destruct (f x); simpl.
  - now apply perm_skip.
  - rewrite <- Permutation_middle. now apply perm_skip.
Qed.

(** X16. Every row gets exactly one [aliCreate]: the lines of the two
    alias files after their headings are, together, the lines of the rows
    in some order. *)
Theorem alias_files_partition (cfgname : string) (all_fab : list devrow) :
  exists a b,
    Afab_ali (emit cfgname all_fab) =
    Some (Header "Alias create commands for fabric A" :: a) /\
    Bfab_ali (emit cfgname all_fab) =
    Some (Header "Alias create commands for fabric B" :: b) /\
    Permutation (a ++ b) (map aliline all_fab).
Proof.
  destruct (emit_alias_files cfgname all_fab) as [EA EB].
  eexists. eexists. split; [exact EA|]. split; [exact EB|].
  rewrite <- map_app, filter_partition_perm.
  apply Permutation_map, sort_perm.
Qed.

(** The nested loops are one loop over the pairs, initiators outermost. *)
Lemma zone_fold_pairs (cfgname : string) (INI TGT : list devrow) (z : zvars) :
  fold_left (fun z inirow => fold_left (zone_step cfgname inirow) TGT z)
            INI z =
  fold_left (pair_step cfgname) (list_prod INI TGT) z.
Proof.
  revert z. induction INI as [|i INI IH]; intros z; simpl; [reflexivity|].
  rewrite fold_left_app, <- IH. f_equal.
  clear. revert z. induction TGT as [|t TGT IH]; intros z; simpl.
  - reflexivity.
  - apply IH.
Qed.

Ltac zone_cases i t z :=
  unfold pair_step, pair_on_A, pair_on_B, zone_step, neq, addline;
  cbn [fst snd];
  destruct (String.eqb (fabric i) (fabric t)) eqn:Eft; cbn [negb andb];
  [destruct (String.eqb (fabric i) "A") eqn:EA;
   destruct (eq_last (node i) (last_ininode z) &&
             eq_last (primaryif i) (last_iniprime z) &&
             eq_last (node t) (last_tgtnode z)) eqn:Esame;
   cbn [negb andb afabzon bfabzon afabcfg bfabcfg cfga_count cfgb_count
        last_ininode last_iniprime last_tgtnode]
  |].

(** A pair whose rows are on different fabrics changes nothing. *)
Lemma pair_step_skip (cfgname : string) (z : zvars) (p : devrow * devrow) :
  String.eqb (fabric (fst p)) (fabric (snd p)) = false ->
  pair_step cfgname z p = z.
Proof.
  destruct p as [i t]. unfold pair_step, zone_step, neq. cbn [fst snd].
  now intros ->.
Qed.

(** *** The [zoneAdd] lines *)

Lemma pair_step_adds (cfgname : string) (z : zvars) (p : devrow * devrow) :
  filter is_zoneadd (afabzon (pair_step cfgname z p)) =
  (filter is_zoneadd (afabzon z) ++
   if pair_on_A p then [addline p] else [])%list /\
  filter is_zoneadd (bfabzon (pair_step cfgname z p)) =
  (filter is_zoneadd (bfabzon z) ++
   if pair_on_B p then [addline p] else [])%list.
Proof.
  destruct p as [i t]. zone_cases i t z;
    rewrite ?filter_app, ?app_nil_r; split; reflexivity.
Qed.

Lemma pairs_fold_adds (cfgname : string) (ps : list (devrow * devrow))
  (z : zvars) :
  filter is_zoneadd (afabzon (fold_left (pair_step cfgname) ps z)) =
  (filter is_zoneadd (afabzon z) ++ map addline (filter pair_on_A ps))%list /\
  filter is_zoneadd (bfabzon (fold_left (pair_step cfgname) ps z)) =
  (filter is_zoneadd (bfabzon z) ++ map addline (filter pair_on_B ps))%list.
Proof.
  revert z. induction ps as [|p ps IH]; intros z; simpl.
  - now rewrite !app_nil_r.
  - destruct (IH (pair_step cfgname z p)) as [EA EB].
    destruct (pair_step_adds cfgname z p) as [SA SB].
    rewrite EA, EB, SA, SB, <- !app_assoc.
    destruct (pair_on_A p), (pair_on_B p); split; reflexivity.
Qed.

(** X17. The [zoneAdd] lines of the fabric A zone file are, in this order,
    one line for every pair of an initiator and a target that both have
    fabric A, initiators outermost in their list order and targets in
    theirs; those of the fabric B file are one line for every pair with
    equal fabric fields other than A. Pairs on different fabrics add
    nothing. *)
Theorem zone_adds_are_the_pairs (cfgname : string) (INI TGT : list devrow) :
  filter is_zoneadd (afabzon (zone_loop cfgname INI TGT)) =
  map addline (filter pair_on_A (list_prod INI TGT)) /\
  filter is_zoneadd (bfabzon (zone_loop cfgname INI TGT)) =
  map addline (filter pair_on_B (list_prod INI TGT)).
Proof.
  unfold zone_loop. cbn [afabzon bfabzon].
  rewrite zone_fold_pairs.
  apply (pairs_fold_adds cfgname (list_prod INI TGT) zvars0).
Qed.

(** *** The configuration files *)

Lemma created_zones_app (s t : list command) :
  created_zones (s ++ t) = (created_zones s ++ created_zones t)%list.
Proof.
  induction s as [|c s IH]; simpl; [reflexivity|].
  destruct c; simpl; now rewrite IH.
Qed.

Lemma cfg_lines_snoc (cfgname : string) (zones : list string) (z : string) :
  cfg_lines cfgname (zones ++ [z]) =
  (cfg_lines cfgname zones ++
   [if Nat.eqb (S (List.length zones)) 1 then CfgCreate cfgname z
    else CfgAdd cfgname z])%list.
Proof.
  destruct zones as [|z0 zones]; simpl; [reflexivity|].
  now rewrite map_app.
Qed.

Lemma pair_step_cfg (cfgname : string) (z : zvars) (p : devrow * devrow) :
  cfg_follows cfgname z -> cfg_follows cfgname (pair_step cfgname z p).
Proof.
  intros (CA & CB & FA & FB). destruct p as [i t].
  unfold cfg_follows. zone_cases i t z;
    rewrite ?created_zones_app; cbn [created_zones];
    rewrite ?app_nil_r, ?length_app, ?cfg_lines_snoc, ?app_assoc;
    cbn [List.length];
    rewrite <- ?CA, <- ?CB, <- ?FA, <- ?FB, ?Nat.add_1_r;
    repeat split; auto.
Qed.

Lemma pairs_fold_cfg (cfgname : string) (ps : list (devrow * devrow))
  (z : zvars) :
  cfg_follows cfgname z ->
  cfg_follows cfgname (fold_left (pair_step cfgname) ps z).
Proof.
  revert z. induction ps as [|p ps IH]; intros z H; simpl; [exact H|].
  apply IH. now apply pair_step_cfg.
Qed.

(** X18. Each configuration file is its heading, [cfgClear] and
    [cfgDisable], then one line for every [zoneCreate] of the zone file of
    the same fabric, in the same order and naming the same zone, the first
    a [cfgCreate] and the others [cfgAdd], and at the end [cfgSave]. *)
Theorem cfg_file_follows_zone_file (cfgname : string)
  (INI TGT : list devrow) :
  afabcfg (zone_loop cfgname INI TGT) =
  ([Header "Switch config commands for fabric A"; CfgClear; CfgDisable] ++
   cfg_lines cfgname (created_zones (afabzon (zone_loop cfgname INI TGT))) ++
   [CfgSave])%list /\
  bfabcfg (zone_loop cfgname INI TGT) =
  ([Header "Switch config commands for fabric B"; CfgClear; CfgDisable] ++
   cfg_lines cfgname (created_zones (bfabzon (zone_loop cfgname INI TGT))) ++
   [CfgSave])%list.
Proof.
  unfold zone_loop. cbn [afabzon bfabzon afabcfg bfabcfg].
  rewrite zone_fold_pairs.
  destruct (pairs_fold_cfg cfgname (list_prod INI TGT) zvars0)
    as (_ & _ & FA & FB).
  { repeat split; reflexivity. }
  rewrite FA, FB, <- !app_assoc. split; reflexivity.
Qed.

(** *** The shape of the zone files *)

Lemma zone_stream_app (ok : devrow -> devrow -> Prop) (s t : list command) :
  zone_stream ok s -> zone_stream ok t -> zone_stream ok (s ++ t).
Proof.
  induction 1; intros Ht; simpl; [exact Ht| |]; constructor; auto.
Qed.

Lemma pair_step_formed (okA okB : devrow -> devrow -> Prop)
  (cfgname : string) (z : zvars) (p : devrow * devrow) :
  (pair_on_A p = true -> okA (fst p) (snd p)) ->
  (pair_on_B p = true -> okB (fst p) (snd p)) ->
  zone_files_formed okA okB z ->
  zone_files_formed okA okB (pair_step cfgname z p).
Proof.
  destruct p as [i t]. unfold pair_on_A, pair_on_B. cbn [fst snd].
  intros HA HB [(a & Ea & Sa) (b & Eb & Sb)].
  unfold zone_files_formed.
  zone_cases i t z; rewrite ?Ea, ?Eb; cbn [app];
    (split; [eexists; split; [reflexivity|] | eexists; split; [reflexivity|]]);
    try assumption;
    apply zone_stream_app; try assumption;
    rewrite ?Eft, ?EA in *; cbn [andb negb] in *;
    repeat constructor; auto.
Qed.

Lemma pair_on_A_spec (p : devrow * devrow) :
  pair_on_A p = true <-> fabric (fst p) = "A" /\ fabric (snd p) = "A".
Proof.
  unfold pair_on_A. rewrite andb_true_iff, !String.eqb_eq.
  intuition congruence.
Qed.

Lemma pair_on_B_spec (p : devrow * devrow) :
  pair_on_B p = true <->
  fabric (fst p) = fabric (snd p) /\ fabric (fst p) <> "A".
Proof.
  unfold pair_on_B.
  rewrite andb_true_iff, negb_true_iff, String.eqb_eq, String.eqb_neq.
  reflexivity.
Qed.

Lemma pairs_fold_formed (okA okB : devrow -> devrow -> Prop)
  (cfgname : string) (ps : list (devrow * devrow)) (z : zvars) :
  (forall p, In p ps -> pair_on_A p = true -> okA (fst p) (snd p)) ->
  (forall p, In p ps -> pair_on_B p = true -> okB (fst p) (snd p)) ->
  zone_files_formed okA okB z ->
  zone_files_formed okA okB (fold_left (pair_step cfgname) ps z).
Proof.
  revert z. induction ps as [|p ps IH]; intros z HA HB H; simpl; [exact H|].
  apply IH.
  - intros q Hq. apply HA. now right.
  - intros q Hq. apply HB. now right.
  - apply pair_step_formed; [apply HA | apply HB | exact H]; now left.
Qed.

(** X19. Each zone file is its heading followed by commands in which every
    [zoneCreate] is followed at once by a [zoneAdd] to the same zone. In the
    fabric A file every command comes from an initiator and a target of the
    lists that both have fabric A, is named after their zone and carries
    the alias of the initiator ([zoneCreate]) or of the target ([zoneAdd]);
    in the fabric B file from a pair with equal fabric fields other than
    A. Rows of different fabrics are never zoned together. *)
Theorem zone_files_well_formed (cfgname : string) (INI TGT : list devrow) :
  (exists a,
     afabzon (zone_loop cfgname INI TGT) =
     Header "Zone create commands for fabric A" :: a /\
     zone_stream (fun i t => In i INI /\ In t TGT /\
                             fabric i = "A" /\ fabric t = "A") a) /\
  (exists b,
     bfabzon (zone_loop cfgname INI TGT) =
     Header "Zone create commands for fabric B" :: b /\
     zone_stream (fun i t => In i INI /\ In t TGT /\
                             fabric i = fabric t /\ fabric i <> "A") b).
Proof.
  unfold zone_loop. cbn [afabzon bfabzon].
  rewrite zone_fold_pairs.
  apply (pairs_fold_formed _ _ cfgname (list_prod INI TGT) zvars0).
  - intros [i t] Hp HA. apply in_prod_iff in Hp. apply pair_on_A_spec in HA.
    cbn [fst snd] in *. tauto.
  - intros [i t] Hp HB. apply in_prod_iff in Hp. apply pair_on_B_spec in HB.
    cbn [fst snd] in *. tauto.
  - split; eexists; (split; [reflexivity | constructor]).
Qed.

(** X20. When no initiator has the fabric field of a target (no initiator,
    no target, or all initiators on one fabric and all targets on the
    other), the zone files hold only their heading and the configuration
    files only the heading, [cfgClear], [cfgDisable] and [cfgSave]. *)
Theorem no_pair_no_zone (cfgname : string) (INI TGT : list devrow) :
  (forall i t, In i INI -> In t TGT -> fabric i <> fabric t) ->
  afabzon (zone_loop cfgname INI TGT) =
  [Header "Zone create commands for fabric A"] /\
  bfabzon (zone_loop cfgname INI TGT) =
  [Header "Zone create commands for fabric B"] /\
  afabcfg (zone_loop cfgname INI TGT) =
  [Header "Switch config commands for fabric A"; CfgClear; CfgDisable;
   CfgSave] /\
  bfabcfg (zone_loop cfgname INI TGT) =
  [Header "Switch config commands for fabric B"; CfgClear; CfgDisable;
   CfgSave].
Proof.
  intros H. unfold zone_loop. rewrite zone_fold_pairs.
  assert (E : fold_left (pair_step cfgname) (list_prod INI TGT) zvars0
              = zvars0).
  { assert (HP : forall p, In p (list_prod INI TGT) ->
                           String.eqb (fabric (fst p)) (fabric (snd p))
                           = false).
    { intros [i t] Hp. apply in_prod_iff in Hp. apply String.eqb_neq.
      apply H; tauto. }
    revert HP. generalize (list_prod INI TGT) as ps.
    induction ps as [|p ps IH]; intros HP; simpl; [reflexivity|].
    rewrite pair_step_skip by (apply HP; now left).
    apply IH. intros q Hq. apply HP. now right. }
  rewrite E. repeat split; reflexivity.
Qed.

Lemma no_pair_no_zone_witness :
  afabzon (zone_loop "cfg2020-06-27" [Sample.host1_p1] [Sample.stor1_c2]) =
  [Header "Zone create commands for fabric A"] /\
  bfabzon (zone_loop "cfg2020-06-27" [Sample.host1_p1] [Sample.stor1_c2]) =
  [Header "Zone create commands for fabric B"] /\
  afabcfg (zone_loop "cfg2020-06-27" [Sample.host1_p1] [Sample.stor1_c2]) =
  [Header "Switch config commands for fabric A"; CfgClear; CfgDisable;
   CfgSave] /\
  bfabcfg (zone_loop "cfg2020-06-27" [Sample.host1_p1] [Sample.stor1_c2]) =
  [Header "Switch config commands for fabric B"; CfgClear; CfgDisable;
   CfgSave].
Proof.
  apply no_pair_no_zone.
  intros i t [<-|[]] [<-|[]]. discriminate.
Defined.

(** *** When every [zoneAdd] follows its [zoneCreate] *)

Lemma adds_follow_creates_app (created : list string) (s t : list command) :
  adds_follow_creates created (s ++ t) =
  adds_follow_creates created s &&
  adds_follow_creates (rev (created_zones s) ++ created) t.
Proof.
  revert created. induction s as [|c s IH]; intros created; simpl.
  - reflexivity.
  - destruct c; simpl; rewrite ?IH, <- ?app_assoc, ?andb_assoc; reflexivity.
Qed.

Lemma existsb_eqb_In (z : string) (l : list string) :
  In z l -> existsb (String.eqb z) l = true.
Proof.
  intros H. apply existsb_exists. exists z. split; [exact H|].
  apply String.eqb_refl.
Qed.

Lemma adds_follow_creates_add (s : list command) (z a : string) :
  adds_follow_creates [] s = true -> In z (created_zones s) ->
  adds_follow_creates [] (s ++ [ZoneAdd z a]) = true.
Proof.
  intros H Hz. rewrite adds_follow_creates_app, H. simpl.
  rewrite existsb_eqb_In; [reflexivity|].
  rewrite app_nil_r. now apply in_rev in Hz.
Qed.

Lemma adds_follow_creates_create (s : list command) (z a b : string) :
  adds_follow_creates [] s = true ->
  adds_follow_creates [] (s ++ [ZoneCreate z a; ZoneAdd z b]) = true.
Proof.
  intros H. rewrite adds_follow_creates_app, H. simpl.
  now rewrite String.eqb_refl.
Qed.

Lemma eq_last_true (s : string) (last : option string) :
  eq_last s last = true -> last = Some s.
Proof.
  destruct last as [l|]; simpl; [|discriminate].
  intros H. apply String.eqb_eq in H. now subst.
Qed.

Lemma pair_step_adds_ok (cfgname : string) (INI : list devrow) (z : zvars)
  (p : devrow * devrow) :
  (forall i1 i2, In i1 INI -> In i2 INI -> node i1 = node i2 ->
                 primaryif i1 = primaryif i2 -> fabric i1 = fabric i2) ->
  In (fst p) INI ->
  adds_ok z /\ last_zone_created INI z ->
  adds_ok (pair_step cfgname z p) /\
  last_zone_created INI (pair_step cfgname z p).
Proof.
  intros C Hi [[OA OB] L]. destruct p as [i t]. cbn [fst] in Hi.
  unfold adds_ok, last_zone_created, zone_file_of in *.
  zone_cases i t z; [| | | |now auto].
  - (* fabric A, same zone as the last pair *)
    apply andb_true_iff in Esame. destruct Esame as [Es Et].
    apply andb_true_iff in Es. destruct Es as [En Ep].
    apply eq_last_true in En, Ep, Et.
    destruct (L _ _ _ En Ep Et) as (i0 & Hi0 & N0 & P0 & Z0).
    rewrite (C i0 i Hi0 Hi N0 P0), EA in Z0.
    split; [split; [now apply adds_follow_creates_add | exact OB]|].
    intros n p t' Hn Hp Ht. injection Hn as <-. injection Hp as <-.
    injection Ht as <-. exists i. rewrite EA, created_zones_app.
    repeat split; auto. apply in_or_app. now left.
  - (* fabric A, a new zone *)
    split; [split; [now apply adds_follow_creates_create | exact OB]|].
    intros n p t' Hn Hp Ht. injection Hn as <-. injection Hp as <-.
    injection Ht as <-. exists i. rewrite EA, created_zones_app.
    repeat split; auto. apply in_or_app. right. now left.
  - (* the other file, same zone as the last pair *)
    apply andb_true_iff in Esame. destruct Esame as [Es Et].
    apply andb_true_iff in Es. destruct Es as [En Ep].
    apply eq_last_true in En, Ep, Et.
    destruct (L _ _ _ En Ep Et) as (i0 & Hi0 & N0 & P0 & Z0).
    rewrite (C i0 i Hi0 Hi N0 P0), EA in Z0.
    split; [split; [exact OA | now apply adds_follow_creates_add]|].
    intros n p t' Hn Hp Ht. injection Hn as <-. injection Hp as <-.
    injection Ht as <-. exists i. rewrite EA, created_zones_app.
    repeat split; auto. apply in_or_app. now left.
  - (* the other file, a new zone *)
    split; [split; [exact OA | now apply adds_follow_creates_create]|].
    intros n p t' Hn Hp Ht. injection Hn as <-. injection Hp as <-.
    injection Ht as <-. exists i. rewrite EA, created_zones_app.
    repeat split; auto. apply in_or_app. right. now left.
Qed.

Lemma pairs_fold_adds_ok (cfgname : string) (INI : list devrow)
  (ps : list (devrow * devrow)) (z : zvars) :
  (forall i1 i2, In i1 INI -> In i2 INI -> node i1 = node i2 ->
                 primaryif i1 = primaryif i2 -> fabric i1 = fabric i2) ->
  (forall p, In p ps -> In (fst p) INI) ->
  adds_ok z /\ last_zone_created INI z ->
  adds_ok (fold_left (pair_step cfgname) ps z).
Proof.
  intros C. revert z.
  induction ps as [|p ps IH]; intros z HP H; simpl; [apply H|].
  apply IH.
  - intros q Hq. apply HP. now right.
  - apply pair_step_adds_ok; [exact C | apply HP; now left | exact H].
Qed.

(** X21. When initiators that have the same node and primary interface
    names are on one fabric, every [zoneAdd] of each zone file names a zone
    that an earlier [zoneCreate] of the same file created. *)
Theorem zone_adds_follow_creates (cfgname : string) (INI TGT : list devrow) :
  (forall i1 i2, In i1 INI -> In i2 INI -> node i1 = node i2 ->
                 primaryif i1 = primaryif i2 -> fabric i1 = fabric i2) ->
  adds_follow_creates [] (afabzon (zone_loop cfgname INI TGT)) = true /\
  adds_follow_creates [] (bfabzon (zone_loop cfgname INI TGT)) = true.
Proof.
  intros C. unfold zone_loop. cbn [afabzon bfabzon].
  rewrite zone_fold_pairs.
  apply (pairs_fold_adds_ok cfgname INI (list_prod INI TGT) zvars0 C).
  - intros [i t] Hp. apply in_prod_iff in Hp. cbn [fst]. tauto.
  - split; [split; reflexivity|]. intros n p t Hn. discriminate Hn.
Qed.

Lemma zone_adds_follow_creates_witness :
  adds_follow_creates []
    (afabzon (zone_loop "cfg2020-06-27" [Sample.host1_p1]
                [Sample.stor1_c1; Sample.stor1_c3; Sample.stor1_c2])) = true /\
  adds_follow_creates []
    (bfabzon (zone_loop "cfg2020-06-27" [Sample.host1_p1]
                [Sample.stor1_c1; Sample.stor1_c3; Sample.stor1_c2])) = true.
Proof.
  apply zone_adds_follow_creates.
  intros i1 i2 [<-|[]] [<-|[]] _ _. reflexivity.
Defined.

(* ================================================================= *)
(** ** Duplicate names that are found, and one that is not *)

Lemma length_spaces (n : nat) : String.length (Py.spaces n) = n.
Proof. induction n as [|n IH]; simpl; [reflexivity | now rewrite IH]. Qed.

Lemma length_ljust10 (s : string) :
  String.length s <= 10 -> String.length (Py.ljust10 s) = 10.
Proof.
  intros H. unfold Py.ljust10. rewrite length_append, length_spaces. lia.
Qed.

Lemma spaces_prefix (s : string) (k k' : nat) :
  Py.spaces k = s ++ Py.spaces k' -> ends_with_space s = false ->
  s = EmptyString.
Proof.
  revert k. induction s as [|c s IH]; intros k H E; [reflexivity|].
  exfalso. destruct k as [|k]; [discriminate H|].
  simpl in H. injection H as <- H.
  destruct s as [|d s]; [discriminate E|].
  assert (E' : ends_with_space (String d s) = false) by exact E.
  specialize (IH _ H E'). discriminate IH.
Qed.

Lemma ljust_inj (s s' : string) (k k' : nat) :
  s ++ Py.spaces k = s' ++ Py.spaces k' ->
  ends_with_space s = false -> ends_with_space s' = false -> s = s'.
Proof.
  revert s'. induction s as [|c s IH]; intros [|c' s'] H E E'.
  - reflexivity.
  - symmetry. now apply (spaces_prefix _ k k').
  - apply (spaces_prefix _ k' k); [now symmetry | exact E].
  - simpl in H. injection H as <- H. f_equal.
    apply IH; [exact H| |].
    + destruct s; [reflexivity | exact E].
    + destruct s'; [reflexivity | exact E'].
Qed.

Lemma append_inj_length (a a' b b' : string) :
  String.length a = String.length a' -> a ++ b = a' ++ b' ->
  a = a' /\ b = b'.
Proof.
  revert a'. induction a as [|c a IH]; intros [|c' a'] Hlen H;
    try discriminate Hlen.
  - now split.
  - simpl in *. injection H as <- H. injection Hlen as Hlen.
    destruct (IH _ Hlen H) as [-> ->]. now split.
Qed.

Lemma ascii_compare_refl (c : ascii) : Ascii.compare c c = Eq.
Proof. unfold Ascii.compare. apply N.compare_refl. Qed.

(** Keys with name parts of one length compare on the name parts first. *)
Lemma compare_app_eqlen (p q x y : string) :
  String.length p = String.length q ->
  String.compare (p ++ x) (q ++ y) =
  match String.compare p q with
  | Eq => String.compare x y
  | c => c
  end.
Proof.
  revert q. induction p as [|c p IH]; intros [|d q] Hlen;
    try discriminate Hlen; simpl.
  - reflexivity.
  - injection Hlen as Hlen. rewrite (IH _ Hlen).
    now destruct (Ascii.compare c d).
Qed.

Lemma short_name_spec (s : string) :
  short_name s = true ->
  String.length s <= 10 /\ ends_with_space s = false.
Proof.
  unfold short_name. rewrite andb_true_iff, negb_true_iff, Nat.leb_le.
  tauto.
Qed.

Lemma short_names_spec (r : devrow) :
  short_names r = true ->
  short_name (node r) = true /\ short_name (primaryif r) = true /\
  short_name (subif r) = true.
Proof. unfold short_names. rewrite !andb_true_iff. tauto. Qed.

Lemma length_name_key (r : devrow) :
  short_names r = true -> String.length (name_key r) = 30.
Proof.
  intros H. apply short_names_spec in H. destruct H as (Hn & Hi & Hs).
  apply short_name_spec in Hn, Hi, Hs.
  unfold name_key. rewrite !length_append, !length_ljust10; tauto.
Qed.

Lemma sort_cabkeys_name_key (r : devrow) :
  sort_cabkeys r = name_key r ++ wwpn r.
Proof. unfold sort_cabkeys, name_key. now rewrite !append_assoc. Qed.

(** Short names are read off the name part of the key. *)
Lemma name_key_inj (a b : devrow) :
  short_names a = true -> short_names b = true ->
  name_key a = name_key b ->
  node a = node b /\ primaryif a = primaryif b /\ subif a = subif b.
Proof.
  intros Ha Hb H.
  apply short_names_spec in Ha, Hb.
  destruct Ha as (An & Ai & As'), Hb as (Bn & Bi & Bs).
  apply short_name_spec in An, Ai, As', Bn, Bi, Bs.
  unfold name_key in H.
  apply append_inj_length in H;
    [|rewrite !length_ljust10; tauto].
  destruct H as [Hn H].
  apply append_inj_length in H;
    [|rewrite !length_ljust10; tauto].
  destruct H as [Hi Hs].
  unfold Py.ljust10 in Hn, Hi, Hs.
  apply ljust_inj in Hn, Hi, Hs; tauto.
Qed.

(** A row sorted between two rows with one name part has that name part. *)
Lemma name_key_between (a b c : devrow) :
  short_names a = true -> short_names b = true -> short_names c = true ->
  key_le sort_cabkeys a b -> key_le sort_cabkeys b c ->
  name_key a = name_key c -> name_key b = name_key a.
Proof.
  intros Ha Hb Hc Hab Hbc E.
  unfold key_le in Hab, Hbc. rewrite ltb_false_compare in Hab, Hbc.
  rewrite !sort_cabkeys_name_key in Hab, Hbc.
  rewrite compare_app_eqlen in Hab, Hbc
    by (rewrite !length_name_key; auto).
  rewrite <- E in Hbc.
  rewrite (String.compare_antisym (name_key a) (name_key b)) in Hab.
  destruct (String.compare (name_key b) (name_key a)) eqn:Cmp;
    simpl in *; try congruence.
  now apply String.compare_eq_iff.
Qed.

Lemma count_name_In (n i s : string) (l : list devrow) :
  1 <= count_name n i s l -> exists r, In r l /\ same_name n i s r = true.
Proof.
  induction l as [|a l IH]; [unfold count_name; simpl; lia|].
  rewrite count_name_cons.
  destruct (same_name n i s a) eqn:E.
  - intros _. exists a. split; [now left | exact E].
  - intros H. destruct (IH H) as (r & Hr & Hs).
    exists r. split; [now right | exact Hs].
Qed.

Lemma same_name_spec (n i s : string) (r : devrow) :
  same_name n i s r = true <-> node r = n /\ primaryif r = i /\ subif r = s.
Proof.
  unfold same_name. rewrite !andb_true_iff, !String.eqb_eq. tauto.
Qed.

Lemma dup_name_reports_complete (n i s : string) (l : list devrow)
  (pn pi ps : string) :
  StronglySorted (key_le sort_cabkeys) l ->
  Forall (fun r => short_names r = true) l ->
  2 <= count_name n i s l ->
  In (DuplicateName n i s) (dup_name_reports l pn pi ps).
Proof.
  intros HS. revert pn pi ps.
  induction HS as [|a l HS IH Ha]; intros pn pi ps HF H.
  - unfold count_name in H. simpl in H. lia.
  - cbn [dup_name_reports]. apply in_or_app. right.
    rewrite count_name_cons in H.
    inversion HF as [|? ? Sa HF']; subst.
    destruct (same_name n i s a) eqn:E; [|apply IH; [exact HF' | lia]].
    apply same_name_spec in E. destruct E as (En & Ei & Es).
    assert (H1 : 1 <= count_name n i s l) by lia.
    destruct l as [|b l]; [unfold count_name in H1; simpl in H1; lia|].
    destruct (count_name_In _ _ _ _ H1) as (r & Hr & Hs).
    apply same_name_spec in Hs. destruct Hs as (Rn & Ri & Rs).
    inversion HF' as [|? ? Sb HF'']; subst.
    assert (Eb : node b = node a /\ primaryif b = primaryif a /\
                 subif b = subif a).
    { destruct Hr as [<-|Hr]; [tauto|].
      apply name_key_inj; [exact Sb | exact Sa |].
      apply (name_key_between a b r); auto.
      - rewrite Forall_forall in HF''. now apply HF''.
      - exact (Forall_inv Ha).
      - apply StronglySorted_inv in HS. destruct HS as [_ Hb].
        rewrite Forall_forall in Hb. now apply Hb.
      - unfold name_key. now rewrite Rn, Ri, Rs. }
    destruct Eb as (Bn & Bi & Bs).
    cbn [dup_name_reports]. apply in_or_app. left.
    rewrite Bn, Bi, Bs, !String.eqb_refl. now left.
Qed.

(** X22. When every name field has at most 10 characters and does not end
    in a space, two rows with the same three names are always reported:
    the duplicate-name diagnostic for these names is among the diagnostics
    of the run. *)
Theorem duplicate_name_reported (strict cabchk today n i s : string)
  (all_fab : list devrow) :
  Forall (fun r => short_names r = true) all_fab ->
  2 <= count_name n i s all_fab ->
  In (DuplicateName n i s) (diagnostics (main strict cabchk today all_fab)).
Proof.
  intros HF H. rewrite diagnostics_in_pass_order_lemma.
  apply in_or_app. right. apply in_or_app. right. apply in_or_app. left.
  assert (P : Permutation (Py.sort sort_cabkeys (Py.sort sort_WWPN all_fab))
                          all_fab) by now rewrite !sort_perm.
  apply dup_name_reports_complete.
  - apply sort_strongly_sorted.
  - rewrite Forall_forall in *. intros r Hr. apply HF.
    now apply (Permutation_in _ P).
  - now rewrite (count_name_perm n i s _ all_fab P).
Qed.

Lemma duplicate_name_reported_witness :
  In (DuplicateName "host1" "hba1" EmptyString)
     (diagnostics (main "S" "N" "2020-06-27" [Sample.twin_a; Sample.twin_b])).
Proof.
  apply duplicate_name_reported.
  - repeat constructor.
  - unfold count_name. simpl. lia.
Defined.

(** The bound on the length matters: the first and the third of these rows
    have the same three names, of 10 characters each, and the second, with
    a node name of 11 characters, is sorted between them; nothing is
    reported and two [aliCreate] lines carry the same alias name. *)
Lemma long_names_hide_duplicate :
  count_name "nnnnnnnnnn" "iiiiiiiiii" "ssssssssss" long_name_rows = 2 /\
  diagnostics (main "S" "Y" "2020-06-27" long_name_rows) = [] /\
  Afab_ali (files (main "S" "Y" "2020-06-27" long_name_rows)) =
  Some [Header "Alias create commands for fabric A";
        AliCreate "ali_nnnnnnnnnn_iiiiiiiiii_ssssssssss_FA"
                  "10:00:00:90:fa:00:00:01";
        AliCreate "ali_nnnnnnnnnn_iiiiiiiiii_ssssssssss_FA"
                  "50:00:00:90:fa:00:00:03"].
Proof. repeat split; reflexivity. Qed.

(* ================================================================= *)
(** ** wwidfmt.py: the printed formats *)

Lemma hex_scan_upper (c : ascii) (rest hexstring : string) :
  spec_hex_lower c = true ->
  hex_scan (String (upper_ascii c) rest) hexstring =
  hex_scan rest (hexstring ++ String c EmptyString).
Proof.
  intros H. simpl.
  replace (Py.lower (upper_ascii c)) with c by (revert H; each_char c; easy).
  now rewrite is_hex_spec, H.
Qed.

Lemma hex_scan_dash (rest hexstring : string) :
  hex_scan (String "-" rest) hexstring = hex_scan rest hexstring.
Proof. reflexivity. Qed.

(** Each of the four formats printed for 16 hex digits scans back to these
    digits. *)
Lemma formats_scan_back (digits : list ascii) :
  List.length digits = 16 -> forallb spec_hex_lower digits = true ->
  let h := string_of_list_ascii digits in
  hex_scan (brocadefmt h) EmptyString = h /\
  hex_scan h EmptyString = h /\
  hex_scan (upper_str h) EmptyString = h /\
  hex_scan (vmsfmt h) EmptyString = h.
Proof.
  intros Hlen H.
  do 16 (destruct digits as [|? digits]; [discriminate Hlen|]).
  destruct digits; [|discriminate Hlen].
  cbn -[spec_hex_lower] in H.
  repeat (apply andb_true_iff in H; destruct H as [?Hc H]).
  cbn -[hex_scan upper_ascii].
  repeat split;
    repeat first [rewrite hex_scan_colon | rewrite hex_scan_dash
                 | rewrite hex_scan_hex by assumption
                 | rewrite hex_scan_upper by assumption];
    reflexivity.
Qed.

(** X23. When an entry holds 16 hex digits, each of the four formats
    printed for it (colon separated, plain, upper case, hyphen separated),
    entered again, gives the same printed lines and the same clipboard
    text. *)
Theorem wwidfmt_formats_reenter (userstring again : string) (w : wvars) :
  String.length (hex_scan userstring EmptyString) = 16 ->
  In again [brocadefmt (hex_scan userstring EmptyString);
            hex_scan userstring EmptyString;
            upper_str (hex_scan userstring EmptyString);
            vmsfmt (hex_scan userstring EmptyString)] ->
  wwidfmt_entry again w = wwidfmt_entry userstring w.
Proof.
  intros Hlen Hin.
  assert (E : hex_scan again EmptyString = hex_scan userstring EmptyString).
  { assert (Eh : hex_scan userstring EmptyString =
                 string_of_list_ascii (spec_hex_digits userstring))
      by now rewrite hex_scan_spec.
    rewrite Eh in *. rewrite length_string_of_list_ascii in Hlen.
    destruct (formats_scan_back (spec_hex_digits userstring) Hlen
                (forallb_filter_same _ _)) as (E1 & E2 & E3 & E4).
    destruct Hin as [<-|[<-|[<-|[<-|[]]]]]; assumption. }
  unfold wwidfmt_entry. now rewrite E.
Qed.

Lemma wwidfmt_formats_reenter_witness :
  wwidfmt_entry "1000-0090-fa6b-3cd2" (Wvars [] None) =
  wwidfmt_entry "10:00:00:90:fa:6b:3c:d2" (Wvars [] None).
Proof.
  apply (wwidfmt_formats_reenter "10:00:00:90:fa:6b:3c:d2"
                                 "1000-0090-fa6b-3cd2").
  - reflexivity.
  - simpl. right. right. right. left. reflexivity.
Defined.

Lemma wwidfmt_entry_clipboard (userstring : string) (w : wvars) :
  clipboard (wwidfmt_entry userstring w) =
  if has16 userstring
  then Some (brocadefmt (hex_scan userstring EmptyString))
  else clipboard w.
Proof.
  unfold wwidfmt_entry, has16.
  now destruct (Nat.eqb _ 16).
Qed.

Lemma wwidfmt_clipboard (entries : list string) (w : wvars) :
  clipboard (wwidfmt entries w) = spec_clipboard entries (clipboard w).
Proof.
  unfold spec_clipboard. revert w.
  induction entries as [|u rest IH]; intros w; simpl; [reflexivity|].
  destruct (String.eqb u EmptyString); [reflexivity|].
  rewrite IH, wwidfmt_entry_clipboard. simpl.
  destruct (has16 u); simpl.
  - destruct (rev (filter has16 (typed_entries rest))); reflexivity.
  - reflexivity.
Qed.

Lemma spec_clipboard_shape (entries : list string) (before : option string)
  (x : string) :
  spec_clipboard entries before = Some x ->
  before = Some x \/ spec_strict_shape spec_hex_lower x = true.
Proof.
  unfold spec_clipboard.
  destruct (rev (filter has16 (typed_entries entries))) as [|u l] eqn:E;
    [now left|].
  intros H. injection H as <-. right.
  assert (Hu : In u (filter has16 (typed_entries entries))).
  { apply in_rev. rewrite E. now left. }
  apply filter_In in Hu. destruct Hu as [_ Hu].
  apply (loosewwid_shape_of_result u []).
  unfold loosewwid. unfold has16 in Hu. now rewrite Hu.
Qed.

(** X24. An entry without 16 hex digits leaves the clipboard as it was, an
    entry with 16 hex digits puts their colon separated form on it. After a
    session the clipboard holds the colon separated form of the last entry
    with 16 hex digits typed before the first empty entry, or, when there is
    none, what it held before; so its text is either the one that was there
    before the session or has 23 characters, colons at the seven separator
    positions and one of 0-9, a-f everywhere else. *)
Theorem wwidfmt_clipboard_canonical :
  (forall userstring w,
     clipboard (wwidfmt_entry userstring w) =
     if has16 userstring
     then Some (brocadefmt (hex_scan userstring EmptyString))
     else clipboard w) /\
  (forall entries w,
     clipboard (wwidfmt entries w) = spec_clipboard entries (clipboard w)) /\
  (forall entries w x,
     clipboard (wwidfmt entries w) = Some x ->
     clipboard w = Some x \/ spec_strict_shape spec_hex_lower x = true).
Proof.
  split; [exact wwidfmt_entry_clipboard|].
  split; [exact wwidfmt_clipboard|].
  intros entries w x H. rewrite wwidfmt_clipboard in H.
  now apply spec_clipboard_shape in H.
Qed.

Lemma wwidfmt_clipboard_canonical_witness :
  clipboard (wwidfmt_entry "12" (Wvars [] (Some "kept"))) = Some "kept" /\
  clipboard (wwidfmt ["not a wwid"; "1000 0090 FA6B 3CD2"; "12";
                      EmptyString; "ff"] (Wvars [] None)) =
  Some "10:00:00:90:fa:6b:3c:d2" /\
  (clipboard (Wvars [] None) = Some "10:00:00:90:fa:6b:3c:d2" \/
   spec_strict_shape spec_hex_lower "10:00:00:90:fa:6b:3c:d2" = true).
Proof.
  destruct wwidfmt_clipboard_canonical as (H1 & H2 & H3).
  split; [apply (H1 "12")|].
  split; [apply (H2 ["not a wwid"; "1000 0090 FA6B 3CD2"; "12";
                     EmptyString; "ff"])|].
  apply (H3 ["not a wwid"; "1000 0090 FA6B 3CD2"; "12"; EmptyString; "ff"]).
  reflexivity.
Defined.

(* ================================================================= *)
(** ** Reading the rows *)

Section ReadingFacts.
Context (upper : string -> string).

Lemma csv_fields_none (rec : list string) :
  csv_fields upper rec = None <-> List.length rec < 6.
Proof.
  unfold csv_fields.
  do 6 (destruct rec as [|? rec]; [simpl; split; [lia | reflexivity]|]).
  simpl. split; [discriminate | lia].
Qed.

Lemma read_csv_none (recs : list (list string)) (hp : bool)
  (acc : list devrow) :
  read_csv upper recs hp acc = None <->
  Exists (fun rec => List.length rec < 6) recs.
Proof.
  revert hp acc. induction recs as [|rec recs IH]; intros hp acc; simpl.
  - split; [discriminate | intros H; inversion H].
  - rewrite Exists_cons, <- csv_fields_none.
    destruct (csv_fields upper rec) as [row|].
    + destruct (negb hp); [|destruct (Nat.eqb _ 0)]; rewrite IH;
        intuition discriminate.
    + tauto.
Qed.

Lemma read_csv_some (recs : list (list string)) (acc all_fab : list devrow) :
  read_csv upper recs true acc = Some all_fab ->
  all_fab = (acc ++ flat_map (csv_kept upper) recs)%list.
Proof.
  revert acc. induction recs as [|rec recs IH]; intros acc; simpl.
  - intros H. injection H as <-. now rewrite app_nil_r.
  - unfold csv_kept at 1.
    destruct (csv_fields upper rec) as [row|]; [|discriminate].
    destruct (Nat.eqb _ 0); intros H; apply IH in H; rewrite H.
    + reflexivity.
    + now rewrite <- app_assoc.
Qed.

Lemma csv_kept_node (rec : list string) :
  Forall (fun row => node row <> EmptyString) (csv_kept upper rec).
Proof.
  unfold csv_kept.
  destruct (csv_fields upper rec) as [row|]; [|constructor].
  destruct (Nat.eqb _ 0) eqn:E; constructor; [|constructor].
  intros H. rewrite H in E. discriminate E.
Qed.

End ReadingFacts.

(** X25. Reading the CSV records stops with an exception exactly when some
    record has fewer than six fields, be it the header, a record that would
    be skipped, or an empty line. *)
Theorem read_csv_raises_iff (upper : string -> string)
  (recs : list (list string)) :
  read_csv upper recs false [] = None <->
  Exists (fun rec => List.length rec < 6) recs.
Proof. apply read_csv_none. Qed.

(** X26. When the CSV records are read without exception, the first record
    is left out whatever it holds, every later record whose first field is
    empty after [strip] is left out, the others give one row each, in their
    order; so every row of [all_fab] has a node name that is not empty. *)
Theorem read_csv_rows (upper : string -> string)
  (recs : list (list string)) (all_fab : list devrow) :
  read_csv upper recs false [] = Some all_fab ->
  all_fab = flat_map (csv_kept upper) (tl recs) /\
  Forall (fun row => node row <> EmptyString) all_fab.
Proof.
  intros H.
  assert (E : all_fab = flat_map (csv_kept upper) (tl recs)).
  { destruct recs as [|hd recs]; simpl in *.
    - now injection H as <-.
    - destruct (csv_fields upper hd); [|discriminate].
      now apply read_csv_some in H. }
  split; [exact E|]. rewrite E. clear.
  induction (tl recs) as [|rec l IH]; simpl; [constructor|].
  apply Forall_app. split; [apply csv_kept_node | exact IH].
Qed.

Lemma read_csv_rows_witness :
  [Devrow "host1" "hba1" "p1" "A" "I" "10:00:00:90:fa:00:00:01"] =
  flat_map (csv_kept upper_text)
    (tl [["Node"; "I/f"; "Subif"; "Fabric"; "I/T"; "WWPN"; "WWNN"];
         ["  "; "x"; "y"; "a"; "i"; "z"];
         [" host1"; "hba1 "; "p1"; "a"; "i "; "10:00:00:90:FA:00:00:01"]]) /\
  Forall (fun row => node row <> EmptyString)
    [Devrow "host1" "hba1" "p1" "A" "I" "10:00:00:90:fa:00:00:01"].
Proof.
  apply (read_csv_rows upper_text
           [["Node"; "I/f"; "Subif"; "Fabric"; "I/T"; "WWPN"; "WWNN"];
            ["  "; "x"; "y"; "a"; "i"; "z"];
            [" host1"; "hba1 "; "p1"; "a"; "i "; "10:00:00:90:FA:00:00:01"]]).
  reflexivity.
Defined.

Lemma rstrip_last (s : string) (c : ascii) :
  is_space c = false ->
  rstrip (s ++ String c EmptyString) = s ++ String c EmptyString.
Proof.
  intros H. induction s as [|d s IH]; simpl.
  - now rewrite H.
  - rewrite IH. now destruct s.
Qed.

Lemma either_case_lowered (c : ascii) :
  spec_hex_either_case c = true ->
  spec_hex_lower (Py.lower c) = true /\ is_space (Py.lower c) = false.
Proof. each_char c; (discriminate || (split; reflexivity)). Qed.

(** Lower-casing a string of the strict shape in either case gives one of
    the strict shape in lower case, which [strip] leaves as it is. *)
Lemma lowered_shape (raw : string) :
  spec_strict_shape spec_hex_either_case raw = true ->
  spec_strict_shape spec_hex_lower (lower_str raw) = true /\
  strip (lower_str raw) = lower_str raw.
Proof.
  unfold spec_strict_shape. intros H.
  apply andb_true_iff in H. destruct H as [Hlen H].
  apply Nat.eqb_eq in Hlen.
  do 23 (destruct raw as [|? raw]; [discriminate Hlen|]).
  destruct raw; [|discriminate Hlen].
  cbn -[spec_hex_either_case Ascii.eqb] in H.
  repeat (apply andb_true_iff in H; destruct H as [?Hc H]).
  repeat match goal with
         | E : Ascii.eqb _ ":" = true |- _ => apply Ascii.eqb_eq in E; subst
         | E : spec_hex_either_case _ = true |- _ =>
             apply either_case_lowered in E; destruct E as [?Eh ?Es]
         end.
  cbn [lower_str]. change (Py.lower ":") with ":"%char.
  split.
  - cbn -[spec_hex_lower Py.lower].
    repeat match goal with
           | E : spec_hex_lower _ = true |- _ => rewrite E; clear E
           end.
    reflexivity.
  - unfold strip. cbn [lstrip].
    match goal with
    | |- context [is_space (Py.lower ?c)] =>
        replace (is_space (Py.lower c)) with false by (symmetry; assumption)
    end.
    match goal with
    | |- rstrip ?s = _ =>
        match s with
        | context [String (Py.lower ?c) EmptyString] =>
            apply (rstrip_last
                     (substring 0 22 s) (Py.lower c)); assumption
        end
    end.
Qed.

(** X27. A port identifier cell of the CSV file that has the colon
    separated form with hex digits of either case is stored in lower case,
    and [strictwwid] returns the stored text unchanged: under strict
    checking upper-case identifiers are accepted once read. *)
Theorem csv_upper_case_wwpn_accepted (upper : string -> string)
  (rec : list string) (row : devrow) :
  csv_fields upper rec = Some row ->
  spec_strict_shape spec_hex_either_case (nth 5 rec EmptyString) = true ->
  wwpn row = lower_str (nth 5 rec EmptyString) /\
  strictwwid (wwpn row) = ([], Some (wwpn row)).
Proof.
  unfold csv_fields.
  do 6 (destruct rec as [|? rec]; [discriminate|]).
  intros H. injection H as <-. cbn [nth wwpn]. intros S.
  apply lowered_shape in S. destruct S as [S ->].
  split; [reflexivity | now apply strictwwid_accepts].
Qed.

Lemma csv_upper_case_wwpn_accepted_witness :
  wwpn (Devrow "host1" "hba1" "p1" "A" "I" "10:00:00:90:fa:6b:3c:d2") =
  lower_str "10:00:00:90:FA:6B:3C:D2" /\
  strictwwid
    (wwpn (Devrow "host1" "hba1" "p1" "A" "I" "10:00:00:90:fa:6b:3c:d2")) =
  ([], Some
         (wwpn (Devrow "host1" "hba1" "p1" "A" "I" "10:00:00:90:fa:6b:3c:d2"))).
Proof.
  apply (csv_upper_case_wwpn_accepted upper_text
           [" host1"; "hba1 "; "p1"; "a"; "i "; "10:00:00:90:FA:6B:3C:D2"]);
    reflexivity.
Defined.

(** X28. A row whose first cell holds only blanks is left out by the CSV
    branch and kept by the XLSX branch, where it gives a row with an empty
    node name. *)
Theorem blank_node_csv_xlsx (upper : string -> string) (hdr : xrow)
  (hdr_csv : list string) (ws s1 s3 s4 s5 : string) :
  6 <= List.length hdr_csv ->
  ws <> EmptyString -> strip ws = EmptyString ->
  read_csv upper [hdr_csv; [ws; s1; EmptyString; s3; s4; s5]] false [] =
  Some [] /\
  read_xlsx upper [hdr; (Text ws, Text s1, Blank, Text s3, Text s4, Text s5)] =
  Some [Devrow EmptyString (strip s1) EmptyString (strip (upper s3))
               (strip (upper s4)) (strip (lower_str s5))].
Proof.
  intros Hh Hws Hs. split.
  - simpl.
    destruct (csv_fields upper hdr_csv) eqn:E.
    + simpl. now rewrite Hs.
    + apply csv_fields_none in E. lia.
  - unfold read_xlsx. simpl.
    apply String.eqb_neq in Hws. now rewrite Hws, Hs.
Qed.

Lemma blank_node_csv_xlsx_witness :
  read_csv upper_text
    [["Node"; "I/f"; "Subif"; "Fabric"; "I/T"; "WWPN"];
     ["  "; "hba1"; EmptyString; "a"; "i"; "10:00:00:90:fa:00:00:01"]]
    false [] = Some [] /\
  read_xlsx upper_text
    [(Text "Node", Text "I/f", Text "Subif", Text "Fabric", Text "I/T",
      Text "WWPN");
     (Text "  ", Text "hba1", Blank, Text "a", Text "i",
      Text "10:00:00:90:fa:00:00:01")] =
  Some [Devrow EmptyString (strip "hba1") EmptyString
               (strip (upper_text "a")) (strip (upper_text "i"))
               (strip (lower_str "10:00:00:90:fa:00:00:01"))].
Proof.
  apply (blank_node_csv_xlsx upper_text); [simpl; lia | discriminate |
                                            reflexivity].
Defined.
